(** * folder2sprite: a shallow embedding of [folder2sprite.jsx]

    The script packs the images of a folder into one Photoshop document
    and prints the position of every layer as CSS or JSON.  This file
    embeds the script's own functions ([isValidFile], [createCanvas],
    [addLayer], [cleanUp], [outputCoordinates], [createSprite]) and
    proves properties of them.

    Conventions of the embedding.
    - JavaScript strings are [string]s of 8-bit code units; file names
      are taken over ASCII, and [toLowerCase] acts on the letters A-Z.
    - The numbers of the script (counters, spacings, [LIMIT]) are
      integers, modelled in [Z]; the one operation that leaves the
      integers, [%] with a zero divisor, yields [NaN].  Sums and
      products are those of [Z]: they are the script's as long as they
      stay within [MAX_SAFE_INTEGER], where doubles are exact.
    - The host (Photoshop, the ExtendScript console, the user in front
      of the dialogs) is a journal of the calls the script makes,
      collected by a small writer-and-exception monad. *)

From Stdlib Require Import ZArith List Bool Ascii String Lia.
From Stdlib Require Import Numbers.DecimalString.
Import ListNotations.

Local Open Scope string_scope.
Local Open Scope Z_scope.

(** ** JavaScript strings *)

Module Js.

(** The double quote and the line feed, which the script writes. *)
Definition dquote : string := String (ascii_of_nat 34) EmptyString.
Definition newline : string := String (ascii_of_nat 10) EmptyString.

Definition lower_char (c : ascii) : ascii :=
  let n := N_of_ascii c in
  if ((65 <=? n) && (n <=? 90))%N then ascii_of_N (n + 32) else c.

(** [String.prototype.toLowerCase] on ASCII text. *)
Fixpoint toLowerCase (s : string) : string :=
  match s with
  | EmptyString => EmptyString
  | String c rest => String (lower_char c) (toLowerCase rest)
  end.

(** [s.indexOf(t)]: the first position at which [t] occurs in [s],
    or [-1].  [from] is the position of the head of [s]. *)
Fixpoint indexOf_from (from : Z) (s t : string) : Z :=
  if String.prefix t s then from
  else match s with
       | EmptyString => -1
       | String _ rest => indexOf_from (from + 1) rest t
       end.

Definition indexOf (s t : string) : Z := indexOf_from 0 s t.

(** [s.lastIndexOf(t)]: the last position at which [t] occurs, or
    [-1]; [found] is the best position seen so far. *)
Fixpoint lastIndexOf_from (from found : Z) (s t : string) : Z :=
  let found' := if String.prefix t s then from else found in
  match s with
  | EmptyString => found'
  | String _ rest => lastIndexOf_from (from + 1) found' rest t
  end.

Definition lastIndexOf (s t : string) : Z := lastIndexOf_from 0 (-1) s t.

(** [s.substring(0, stop)]: a negative [stop] counts as 0, one past
    the end as the length. *)
Definition substring0 (stop : Z) (s : string) : string :=
  String.substring 0 (Z.to_nat stop) s.

(** [s.split(' ').join('')]: the text with its spaces taken out. *)
Fixpoint split_join_spaces (s : string) : string :=
  match s with
  | EmptyString => EmptyString
  | String c rest =>
      if Ascii.eqb c " "%char then split_join_spaces rest
      else String c (split_join_spaces rest)
  end.

(** The value of a numeric expression: an integer or [NaN]. *)
Inductive number := NaN | Int (z : Z).

(** [a % b] on integers: the sign follows the dividend, and a zero
    divisor gives [NaN] instead of a fault. *)
Definition rem (a b : Z) : number :=
  if b =? 0 then NaN else Int (Z.rem a b).

(** [n === 0]; [NaN] is equal to nothing. *)
Definition is_zero (n : number) : bool :=
  match n with
  | NaN => false
  | Int z => z =? 0
  end.

End Js.

(** [s] contains [t] as a substring. *)
Definition contains (s t : string) : Prop :=
  exists before after, s = before ++ t ++ after.

(** ** User variables (lines 16-56) *)

Record Config := {
  LAYOUT : string;
  LIMIT : Z;
  COL_SPACING : Z;
  ROW_SPACING : Z;
  OUTPUT_FORMAT : string
}.

Definition default_config : Config :=
  {| LAYOUT := "cols"; LIMIT := 1; COL_SPACING := 100; ROW_SPACING := 50;
     OUTPUT_FORMAT := "css" |}.

Definition with_LAYOUT (v : string) (c : Config) : Config :=
  {| LAYOUT := v; LIMIT := LIMIT c; COL_SPACING := COL_SPACING c;
     ROW_SPACING := ROW_SPACING c; OUTPUT_FORMAT := OUTPUT_FORMAT c |}.

Definition with_LIMIT (v : Z) (c : Config) : Config :=
  {| LAYOUT := LAYOUT c; LIMIT := v; COL_SPACING := COL_SPACING c;
     ROW_SPACING := ROW_SPACING c; OUTPUT_FORMAT := OUTPUT_FORMAT c |}.

Definition with_OUTPUT_FORMAT (v : string) (c : Config) : Config :=
  {| LAYOUT := LAYOUT c; LIMIT := LIMIT c; COL_SPACING := COL_SPACING c;
     ROW_SPACING := ROW_SPACING c; OUTPUT_FORMAT := v |}.

(** ** The file filter (lines 82-96) *)

Definition supported_types : list string :=
  [".jpg"; ".jpeg"; ".gif"; ".png"; ".tif"].

(** The [for] loop of [isValidFile] over the types still to try: the
    first type found in the name returns [true], running off the end
    returns [false]. *)
Fixpoint isValidFile_loop (filename : string) (types : list string) : bool :=
  match types with
  | [] => false
  | t :: rest =>
      if negb (Js.indexOf filename t =? -1) then true
      else isValidFile_loop filename rest
  end.

Definition isValidFile (filename : string) : bool :=
  isValidFile_loop filename supported_types.

(** ** The host: files, documents and the journal of calls *)

(** A [File] of the selected folder: its name, and where the content
    of the image sits when Photoshop opens it (the left and top of the
    bounds of its layer). *)
Record File := {
  file_name : string;
  image_left : Z;
  image_top : Z
}.

(** What [folder.getFiles()] lists: [File]s and sub-[Folder]s. *)
Inductive Entry :=
| AFile (f : File)
| AFolder (folder_name : string).

Record Folder := { getFiles : list Entry }.

Record Coordinates := { x : Z; y : Z }.

(** A layer of the sprite: its name and [bounds[0]], [bounds[1]], the
    only two bounds the script reads. *)
Record Layer := {
  layer_name : string;
  bounds0 : Z;
  bounds1 : Z
}.

(** A document: [layers d] is [doc.layers], index 0 first; index 0 is
    where [ElementPlacement.PLACEATBEGINNING] puts a new layer. *)
Record Document := {
  doc_name : string;
  layers : list Layer
}.

Inductive DocumentFill := WHITE | BACKGROUNDCOLOR | TRANSPARENT.

(** The calls the script makes, in the order it makes them.
    [AddLayer] is the call at line 252; next to the image and the
    coordinates it passes, the entry keeps the values of [col_index]
    and [row_index] the coordinates were computed from. *)
Inductive Event :=
| SelectDialog
| Confirm (message : string)
| DocumentsAdd (width height resolution : Z) (name : string)
    (fill : DocumentFill)
| AddLayer (source_image : Entry) (col_index row_index : Z)
    (coordinates : Coordinates)
| CleanUp
| OutputCoordinates
| Write (text : string).

(** What the script leaves to Photoshop: how a bound prints
    ([UnitValue.toString], such as [100 px]), and the corner to which
    [revealAll] followed by [trim] moves the origin of the document. *)
Record Engine := {
  toString : Z -> string;
  trim_corner : list Layer -> Z * Z
}.

Inductive Error :=
| TypeError (what : string)
| HostError (what : string).

Inductive Outcome (A : Type) :=
| Returned (a : A)
| Threw (e : Error).

Arguments Returned {A} a.
Arguments Threw {A} e.

(** A piece of script: how it ends, and the calls it made. *)
Definition Script (A : Type) : Type := Outcome A * list Event.

Definition ret {A : Type} (a : A) : Script A := (Returned a, []).

Definition throw {A : Type} (e : Error) : Script A := (Threw e, []).

Definition bind {A B : Type} (m : Script A) (k : A -> Script B) : Script B :=
  match fst m with
  | Returned a => (fst (k a), (snd m ++ snd (k a))%list)
  | Threw e => (Threw e, snd m)
  end.

Definition call (e : Event) : Script unit := (Returned tt, [e]).

Declare Scope script_scope.
Delimit Scope script_scope with script.

Notation "v <- m ;; k" := (bind m (fun v => k))
  (at level 61, m at next level, right associativity) : script_scope.
Notation "m ;; k" := (bind m (fun _ => k))
  (at level 61, right associativity) : script_scope.

Local Open Scope script_scope.

Definition outcome {A : Type} (m : Script A) : Outcome A := fst m.
Definition journal {A : Type} (m : Script A) : list Event := snd m.

(** [$.write] and [$.writeln] *)
Definition write (text : string) : Script unit := call (Write text).
Definition writeln (text : string) : Script unit :=
  call (Write (text ++ Js.newline)).

(** All that was written to the console, in order. *)
Fixpoint console (j : list Event) : string :=
  match j with
  | [] => EmptyString
  | Write text :: rest => text ++ console rest
  | _ :: rest => console rest
  end.

(** ** The script's functions *)

(** [createCanvas] (lines 103-118).  Photoshop gives a new document one
    empty layer; the ruler units, saved and put back around the call,
    are not part of the model. *)
Definition empty_layer : Layer :=
  {| layer_name := "Layer 1"; bounds0 := 0; bounds1 := 0 |}.

Definition createCanvas : Script Document :=
  let document_name := "sprite" in
  let document_width := 10000 in
  let document_height := 10000 in
  let document_resolution := 72 in
  call (DocumentsAdd document_width document_height document_resolution
          document_name TRANSPARENT);;
  ret {| doc_name := document_name; layers := [empty_layer] |}.

(** [addLayer] (lines 128-165).  The document is passed by reference
    in the script; here the changed document is returned.  [translate]
    adds its arguments to the bounds of the layer.  Here Photoshop
    opens every file it is given; [Fallible.addLayer] below is the
    function on a host where [open] may fail. *)
Definition addLayer (source_image : Entry) (destination_doc : option Document)
    (coordinates : Coordinates) : Script Document :=
  match source_image with
  | AFolder _ => throw (HostError "open: not a file")
  | AFile f =>
      match destination_doc with
      | None => throw (TypeError "destination_doc is undefined")
      | Some dest =>
          let doc_name_ := file_name f in
          (* duplicate(..., PLACEATBEGINNING): the copy becomes layer 0 *)
          let name := Js.substring0 (Js.lastIndexOf doc_name_ ".") doc_name_ in
          let left_offset := image_left f * -1 in
          let top_offset := image_top f * -1 in
          (* translate(left_offset, top_offset) *)
          let moved0 := image_left f + left_offset in
          let moved1 := image_top f + top_offset in
          (* translate(coordinates.x, coordinates.y) *)
          let destination_layer :=
            {| layer_name := name;
               bounds0 := moved0 + x coordinates;
               bounds1 := moved1 + y coordinates |} in
          ret {| doc_name := doc_name dest;
                 layers := destination_layer :: layers dest |}
      end
  end.

Definition shift (dx dy : Z) (l : Layer) : Layer :=
  {| layer_name := layer_name l;
     bounds0 := bounds0 l + dx;
     bounds1 := bounds1 l + dy |}.

(** [cleanUp] (lines 172-177): the layer of the last index is removed,
    then [revealAll] and [trim] cut the document down to its content,
    which moves its origin.  The zoom of the last line changes nothing
    the script reads. *)
Definition cleanUp (ps : Engine) (document : Document) : Script Document :=
  call CleanUp;;
  match layers document with
  | [] => throw (TypeError "artLayers[-1] is undefined")
  | _ :: _ =>
      let kept := removelast (layers document) in
      let corner := trim_corner ps kept in
      ret {| doc_name := doc_name document;
             layers := map (shift (- fst corner) (- snd corner)) kept |}
  end.

Definition bound_text (ps : Engine) (b : Z) : string :=
  Js.split_join_spaces (toString ps b).

(** The two lines of lines 197 and 203. *)
Definition json_line (ps : Engine) (l : Layer) : string :=
  "{" ++ Js.dquote ++ "layer" ++ Js.dquote ++ ": " ++ Js.dquote
  ++ layer_name l ++ Js.dquote ++ ", " ++ Js.dquote ++ "x" ++ Js.dquote
  ++ ": " ++ Js.dquote ++ bound_text ps (bounds0 l) ++ Js.dquote ++ ", "
  ++ Js.dquote ++ "y" ++ Js.dquote ++ ": " ++ Js.dquote ++ "-"
  ++ bound_text ps (bounds1 l) ++ Js.dquote ++ "}".

Definition css_line (ps : Engine) (l : Layer) : string :=
  "." ++ layer_name l ++ " {" ++ "background-position: " ++ "-"
  ++ bound_text ps (bounds0 l) ++ " -" ++ bound_text ps (bounds1 l)
  ++ ";" ++ "}".

(** The loop of [outputCoordinates] (lines 195-205), with [n = i + 1]:
    [i] runs from [n - 1] down to [limit = 0]. *)
Fixpoint outputCoordinates_loop (ps : Engine) (format : string)
    (doc : Document) (n : nat) : Script unit :=
  match n with
  | O => ret tt
  | S i =>
      match nth_error (layers doc) i with
      | None => throw (TypeError "doc.layers[i] is undefined")
      | Some l =>
          (if String.eqb format "json" then
             writeln (json_line ps l);;
             if (0 <? Z.of_nat i) then write "," else ret tt
           else
             writeln (css_line ps l));;
          outputCoordinates_loop ps format doc i
      end
  end.

(** [outputCoordinates] (lines 185-211) *)
Definition outputCoordinates (ps : Engine) (cfg : Config) (doc : Document)
    : Script unit :=
  call OutputCoordinates;;
  let format := Js.toLowerCase (OUTPUT_FORMAT cfg) in
  (if String.eqb format "json" then writeln "[" else ret tt);;
  outputCoordinates_loop ps format doc (List.length (layers doc));;
  (if String.eqb format "json" then writeln "]" else ret tt).

(** The local variables of [createSprite] that the loop changes. *)
Record Locals := {
  new_canvas : bool;
  new_doc : option Document;
  col_index : Z;
  row_index : Z
}.

(** Line 241: [(image_file instanceof File) &&
    isValidFile(image_file.name.toLowerCase())]. *)
Definition valid_image (image_file : Entry) : bool :=
  match image_file with
  | AFile f => isValidFile (Js.toLowerCase (file_name f))
  | AFolder _ => false
  end.

(** Lines 257-269: the new [(col_index, row_index)]. *)
Definition update_indices (cfg : Config) (col_index row_index : Z) : Z * Z :=
  if String.eqb (LAYOUT cfg) "rows" then
    let row_index := row_index + 1 in
    if Js.is_zero (Js.rem row_index (LIMIT cfg))
    then (col_index + 1, 0)
    else (col_index, row_index)
  else
    let col_index := col_index + 1 in
    if Js.is_zero (Js.rem col_index (LIMIT cfg))
    then (0, row_index + 1)
    else (col_index, row_index).

(** The body of the loop of [createSprite] (lines 240-271). *)
Definition createSprite_body (cfg : Config) (image_file : Entry)
    (st : Locals) : Script Locals :=
  if valid_image image_file then
    st1 <- (if negb (new_canvas st) then
              canvas <- createCanvas;;
              ret {| new_canvas := true; new_doc := Some canvas;
                     col_index := col_index st; row_index := row_index st |}
            else ret st);;
    let coordinates :=
      {| x := COL_SPACING cfg * col_index st1;
         y := ROW_SPACING cfg * row_index st1 |} in
    call (AddLayer image_file (col_index st1) (row_index st1) coordinates);;
    doc <- addLayer image_file (new_doc st1) coordinates;;
    let next := update_indices cfg (col_index st1) (row_index st1) in
    ret {| new_canvas := new_canvas st1; new_doc := Some doc;
           col_index := fst next; row_index := snd next |}
  else ret st.

(** The loop of [createSprite] (lines 238-273) over the entries still
    to visit. *)
Fixpoint createSprite_loop (cfg : Config) (doc_list : list Entry)
    (st : Locals) : Script Locals :=
  match doc_list with
  | [] => ret st
  | image_file :: rest =>
      st' <- createSprite_body cfg image_file st;;
      createSprite_loop cfg rest st'
  end.

(** The local variables when the loop starts (lines 220, 235, 236);
    [new_doc] is still undefined. *)
Definition start : Locals :=
  {| new_canvas := false; new_doc := None; col_index := 0; row_index := 0 |}.

(** The [if (folder)] branch of [createSprite] (lines 233-278). *)
Definition createSprite_folder (ps : Engine) (cfg : Config) (folder : Folder)
    : Script unit :=
  let doc_list := getFiles folder in
  st <- createSprite_loop cfg doc_list start;;
  if new_canvas st then
    match new_doc st with
    | None => throw (TypeError "new_doc is undefined")
    | Some doc =>
        trimmed <- cleanUp ps doc;;
        outputCoordinates ps cfg trimmed
    end
  else ret tt.

(** What the user does when asked to try again: decline, or accept and
    answer the folder dialog that follows ([None]: the dialog is
    cancelled). *)
Inductive Reply :=
| Decline
| TryAgain (selected : option Folder).

Definition try_again_message : string :=
  "The folder you selected does not contain any recognized image formats!"
  ++ Js.newline ++ Js.newline ++ "Select another folder...".

(** [getFolder] (lines 71-74): the dialog is shown; its answer is the
    user's. *)
Definition getFolder (selected : option Folder) : Script (option Folder) :=
  call SelectDialog;;
  ret selected.

(** [createSprite] (lines 218-290).  [user] holds the replies of the
    user to the prompts still to come; a user who has no reply left
    has walked away, and the prompt is dismissed. *)
Fixpoint createSprite (ps : Engine) (cfg : Config) (user : list Reply)
    (folder : option Folder) : Script unit :=
  match folder with
  | Some f => createSprite_folder ps cfg f
  | None =>
      call (Confirm try_again_message);;
      match user with
      | [] => ret tt
      | Decline :: _ => ret tt
      | TryAgain selected :: later =>
          next <- getFolder selected;;
          createSprite ps cfg later next
      end
  end.

(** Line 294: [createSprite(getFolder())]. *)
Definition main (ps : Engine) (cfg : Config) (selected : option Folder)
    (user : list Reply) : Script unit :=
  folder <- getFolder selected;;
  createSprite ps cfg user folder.

(** ** When a file does not open

    [open(source_image)] (line 138) throws when Photoshop cannot open
    the file, and nothing in the script catches what it throws.  The
    functions above are the script on a host that opens every file;
    the functions of this module are the same lines of the script with
    the files that open, [opens], as a parameter. *)

Definition open_error : Error := HostError "open: the file does not open".

Module Fallible.

(** [addLayer] (lines 128-165): line 138 first. *)
Definition addLayer (opens : File -> bool) (source_image : Entry)
    (destination_doc : option Document) (coordinates : Coordinates)
    : Script Document :=
  match source_image with
  | AFile f =>
      if opens f then addLayer source_image destination_doc coordinates
      else throw open_error
  | AFolder _ => addLayer source_image destination_doc coordinates
  end.

(** The body of the loop of [createSprite] (lines 240-271). *)
Definition createSprite_body (opens : File -> bool) (cfg : Config)
    (image_file : Entry) (st : Locals) : Script Locals :=
  if valid_image image_file then
    st1 <- (if negb (new_canvas st) then
              canvas <- createCanvas;;
              ret {| new_canvas := true; new_doc := Some canvas;
                     col_index := col_index st; row_index := row_index st |}
            else ret st);;
    let coordinates :=
      {| x := COL_SPACING cfg * col_index st1;
         y := ROW_SPACING cfg * row_index st1 |} in
    call (AddLayer image_file (col_index st1) (row_index st1) coordinates);;
    doc <- addLayer opens image_file (new_doc st1) coordinates;;
    let next := update_indices cfg (col_index st1) (row_index st1) in
    ret {| new_canvas := new_canvas st1; new_doc := Some doc;
           col_index := fst next; row_index := snd next |}
  else ret st.

(** The loop of [createSprite] (lines 238-273). *)
Fixpoint createSprite_loop (opens : File -> bool) (cfg : Config)
    (doc_list : list Entry) (st : Locals) : Script Locals :=
  match doc_list with
  | [] => ret st
  | image_file :: rest =>
      st' <- createSprite_body opens cfg image_file st;;
      createSprite_loop opens cfg rest st'
  end.

(** The [if (folder)] branch of [createSprite] (lines 233-278). *)
Definition createSprite_folder (opens : File -> bool) (ps : Engine)
    (cfg : Config) (folder : Folder) : Script unit :=
  let doc_list := getFiles folder in
  st <- createSprite_loop opens cfg doc_list start;;
  if new_canvas st then
    match new_doc st with
    | None => throw (TypeError "new_doc is undefined")
    | Some doc =>
        trimmed <- cleanUp ps doc;;
        outputCoordinates ps cfg trimmed
    end
  else ret tt.

(** [createSprite] (lines 218-290). *)
Fixpoint createSprite (opens : File -> bool) (ps : Engine) (cfg : Config)
    (user : list Reply) (folder : option Folder) : Script unit :=
  match folder with
  | Some f => createSprite_folder opens ps cfg f
  | None =>
      call (Confirm try_again_message);;
      match user with
      | [] => ret tt
      | Decline :: _ => ret tt
      | TryAgain selected :: later =>
          next <- getFolder selected;;
          createSprite opens ps cfg later next
      end
  end.

(** Line 294: [createSprite(getFolder())]. *)
Definition main (opens : File -> bool) (ps : Engine) (cfg : Config)
    (selected : option Folder) (user : list Reply) : Script unit :=
  folder <- getFolder selected;;
  createSprite opens ps cfg user folder.

End Fallible.

(** ** A concrete host, for running the script on examples *)

(** Bounds print in pixels, as in [100 px]. *)
Definition pixels (b : Z) : string :=
  NilZero.string_of_int (Z.to_int b) ++ " px".

(** The corner of the content: the least left and the least top of the
    layers (the origin when there is no layer). *)
Definition content_corner (ls : list Layer) : Z * Z :=
  match ls with
  | [] => (0, 0)
  | l :: rest =>
      (fold_right Z.min (bounds0 l) (map bounds0 rest),
       fold_right Z.min (bounds1 l) (map bounds1 rest))
  end.

Definition photoshop : Engine :=
  {| toString := pixels; trim_corner := content_corner |}.

Definition file (name : string) : Entry :=
  AFile {| file_name := name; image_left := 0; image_top := 0 |}.

(** The folder of the end-to-end example: two icons and a text file. *)
Definition icons_folder : Folder :=
  {| getFiles := [file "icon1.png"; file "icon2.png"; file "readme.txt"] |}.

(** A folder without any supported image. *)
Definition notes_folder : Folder :=
  {| getFiles := [file "readme.txt"; AFolder "drafts"] |}.

Definition ab_folder : Folder :=
  {| getFiles := [file "a.png"; file "b.png"] |}.

(** ** Vocabulary of the statements *)

(** The entries of a folder that the filter lets through, in the order
    of the listing. *)
Definition accepted (folder : Folder) : list Entry :=
  filter valid_image (getFiles folder).

(** One call of [addLayer], as the journal has it. *)
Record Placement := {
  placed_image : Entry;
  placed_col : Z;
  placed_row : Z;
  placed_at : Coordinates
}.

Definition placed_cell (p : Placement) : Z * Z := (placed_col p, placed_row p).

Fixpoint placements (j : list Event) : list Placement :=
  match j with
  | [] => []
  | AddLayer e c r at_ :: rest =>
      {| placed_image := e; placed_col := c; placed_row := r;
         placed_at := at_ |} :: placements rest
  | _ :: rest => placements rest
  end.

Definition add_layer_event (p : Placement) : Event :=
  AddLayer (placed_image p) (placed_col p) (placed_row p) (placed_at p).

Definition is_write (e : Event) : bool :=
  match e with
  | Write _ => true
  | _ => false
  end.

(** The number of documents created. *)
Fixpoint canvases (j : list Event) : nat :=
  match j with
  | [] => O
  | DocumentsAdd _ _ _ _ _ :: rest => S (canvases rest)
  | _ :: rest => canvases rest
  end.

(** The wrapping counter and the counter of its wraps after [k] images,
    for any [LIMIT]: a zero [LIMIT] never wraps, and a negative one
    wraps like its absolute value. *)
Definition primary (limit k : Z) : Z :=
  if limit =? 0 then k else k mod Z.abs limit.

Definition secondary (limit k : Z) : Z :=
  if limit =? 0 then 0 else k / Z.abs limit.

(** [(col_index, row_index)] for the image of ordinal [k]. *)
Definition cell (cfg : Config) (k : Z) : Z * Z :=
  if String.eqb (LAYOUT cfg) "rows"
  then (secondary (LIMIT cfg) k, primary (LIMIT cfg) k)
  else (primary (LIMIT cfg) k, secondary (LIMIT cfg) k).

Definition place (cfg : Config) (k : Z) (e : Entry) : Placement :=
  {| placed_image := e;
     placed_col := fst (cell cfg k);
     placed_row := snd (cell cfg k);
     placed_at := {| x := COL_SPACING cfg * fst (cell cfg k);
                     y := ROW_SPACING cfg * snd (cell cfg k) |} |}.

(** The placements of a list of images, the first of ordinal [k]. *)
Fixpoint plan_from (cfg : Config) (k : Z) (images : list Entry)
    : list Placement :=
  match images with
  | [] => []
  | e :: rest => place cfg k e :: plan_from cfg (k + 1) rest
  end.

Definition entry_name (e : Entry) : string :=
  match e with
  | AFile f => file_name f
  | AFolder n => n
  end.

(** The layer a placement leaves in the sprite: named after the file
    without its last extension, its corner at the coordinates. *)
Definition placed_layer (p : Placement) : Layer :=
  let n := entry_name (placed_image p) in
  {| layer_name := Js.substring0 (Js.lastIndexOf n ".") n;
     bounds0 := x (placed_at p);
     bounds1 := y (placed_at p) |}.

(** The layers of the trimmed sprite, listed in the order in which the
    images were placed (the reverse of [doc.layers]). *)
Definition sprite_layers (ps : Engine) (cfg : Config) (images : list Entry)
    : list Layer :=
  let placed := map placed_layer (plan_from cfg 0 images) in
  let corner := trim_corner ps (rev placed) in
  map (shift (- fst corner) (- snd corner)) placed.

(** Texts with a separator between any two of them. *)
Fixpoint separated (sep : string) (parts : list string) : string :=
  match parts with
  | [] => EmptyString
  | [p] => p
  | p :: rest => p ++ sep ++ separated sep rest
  end.

Fixpoint concat_text (parts : list string) : string :=
  match parts with
  | [] => EmptyString
  | p :: rest => p ++ concat_text rest
  end.

(** A JSON object of three members whose values are JSON strings. *)
Definition json_object (name xv yv : string) : string :=
  "{" ++ Js.dquote ++ "layer" ++ Js.dquote ++ ": "
  ++ Js.dquote ++ name ++ Js.dquote
  ++ ", " ++ Js.dquote ++ "x" ++ Js.dquote ++ ": "
  ++ Js.dquote ++ xv ++ Js.dquote
  ++ ", " ++ Js.dquote ++ "y" ++ Js.dquote ++ ": "
  ++ Js.dquote ++ yv ++ Js.dquote ++ "}".

(** A CSS rule for a class, giving its background position. *)
Definition css_rule (name xv yv : string) : string :=
  "." ++ name ++ " {background-position: " ++ xv ++ " " ++ yv ++ ";}".

(** The json text for a list of records, in the order given: the
    bracket lines around the records, each record on its own line, a
    comma between any two. *)
Definition json_text (ps : Engine) (records : list Layer) : string :=
  "[" ++ Js.newline
  ++ separated "," (map (fun l => json_line ps l ++ Js.newline) records)
  ++ "]" ++ Js.newline.

(** The css text: one rule a line. *)
Definition css_text (ps : Engine) (records : list Layer) : string :=
  concat_text (map (fun l => css_line ps l ++ Js.newline) records).

Definition export_text (ps : Engine) (cfg : Config) (records : list Layer)
    : string :=
  if String.eqb (Js.toLowerCase (OUTPUT_FORMAT cfg)) "json"
  then json_text ps records
  else css_text ps records.

(** [Number.MAX_SAFE_INTEGER]: up to it, in absolute value, the
    integers are doubles and their sums and products are exact. *)
Definition MAX_SAFE_INTEGER : Z := 2 ^ 53 - 1.

(** Whether Photoshop opens the entry. *)
Definition entry_opens (opens : File -> bool) (e : Entry) : bool :=
  match e with
  | AFile f => opens f
  | AFolder _ => false
  end.

(** The images that [addLayer] is called for: those up to the first
    that does not open, that one included. *)
Fixpoint attempted (opens : File -> bool) (images : list Entry)
    : list Entry :=
  match images with
  | [] => []
  | e :: rest =>
      if entry_opens opens e then e :: attempted opens rest else [e]
  end.

(** A host on which every file opens but the one of this name. *)
Definition all_but (name : string) (f : File) : bool :=
  negb (String.eqb (file_name f) name).

(** The number of calls of [$.write] and [$.writeln]. *)
Definition writes (j : list Event) : nat :=
  List.length (filter is_write j).

(** The two calls of one round of the retry: the confirm box, and the
    folder dialog after the user accepted. *)
Definition asked_again : list Event :=
  [Confirm try_again_message; SelectDialog].

(** ** Proof steps *)

(** Rewriting rules for what is read off a journal. *)
Create Rewrite HintDb journal.

(** Runs the binds and the calls that stand in the open. *)
Ltac script_steps :=
  cbn [bind writeln write call ret getFolder fst snd app].

(** Splits what [outputCoordinates] does on the document of the goal. *)
Ltac export_facts spec Hout ws Hj Hws Hconsole :=
  match goal with
  | |- context [outputCoordinates ?ps ?cfg ?d] =>
      destruct (spec ps cfg d) as [Hout [ws [Hj [Hws Hconsole]]]]
  end.

(** * Properties *)

(** ** Strings *)

Section Strings.

Lemma append_assoc (a b c : string) : (a ++ b) ++ c = a ++ (b ++ c).
Proof.
  induction a as [|ch a IH]; simpl; [reflexivity|].
  now rewrite IH.
Qed.

Lemma append_nil_r (a : string) : a ++ "" = a.
Proof.
  induction a as [|ch a IH]; simpl; [reflexivity|].
  now rewrite IH.
Qed.

Lemma prefix_spec (t s : string) :
  String.prefix t s = true <-> exists after, s = t ++ after.
Proof.
  revert s.
  induction t as [|c t IH]; intros s; simpl.
  - split; [intros _; now exists s | now destruct s].
  - destruct s as [|d s]; simpl.
    + split; [discriminate | intros [after H]; discriminate].
    + destruct (Ascii.ascii_dec c d) as [->|Hneq].
      * rewrite IH.
        split; intros [after H]; exists after.
        -- now rewrite H.
        -- now inversion H.
      * split; [discriminate|].
        intros [after H].
        inversion H.
        congruence.
Qed.

Lemma indexOf_from_range (from : Z) (s t : string) :
  Js.indexOf_from from s t = -1 \/ from <= Js.indexOf_from from s t.
Proof.
  revert from.
  induction s as [|c s IH]; intros from; cbn [Js.indexOf_from].
  - destruct (String.prefix t ""); [right; lia | now left].
  - destruct (String.prefix t (String c s)); [right; lia|].
    destruct (IH (from + 1)) as [H|H]; [now left | right; lia].
Qed.

Lemma indexOf_from_found (from : Z) (s t : string) :
  0 <= from ->
  Js.indexOf_from from s t <> -1 <-> contains s t.
Proof.
  revert from.
  induction s as [|c s IH]; intros from Hfrom; cbn [Js.indexOf_from].
  - destruct (String.prefix t "") eqn:Hp.
    + split; [intros _ | lia].
      apply prefix_spec in Hp.
      destruct Hp as [after Hp].
      now exists "", after.
    + split; [congruence|].
      intros [before [after H]].
      destruct before; [|discriminate].
      assert (String.prefix t "" = true) by (apply prefix_spec; now exists after).
      congruence.
  - destruct (String.prefix t (String c s)) eqn:Hp.
    + split; [intros _ | lia].
      apply prefix_spec in Hp.
      destruct Hp as [after Hp].
      now exists "", after.
    + rewrite IH by lia.
      split; intros [before [after H]].
      * exists (String c before), after.
        simpl.
        now rewrite H.
      * destruct before as [|d before].
        -- assert (String.prefix t (String c s) = true)
             by (apply prefix_spec; now exists after).
           congruence.
        -- exists before, after.
           now inversion H.
Qed.

(** [indexOf] finds exactly the substrings. *)
Lemma indexOf_contains (s t : string) :
  negb (Js.indexOf s t =? -1) = true <-> contains s t.
Proof.
  rewrite negb_true_iff, Z.eqb_neq.
  apply indexOf_from_found.
  lia.
Qed.

Lemma isValidFile_loop_spec (filename : string) (types : list string) :
  isValidFile_loop filename types = true <->
  exists t, In t types /\ contains filename t.
Proof.
  induction types as [|t types IH]; simpl.
  - split; [discriminate | intros [t [[] _]]].
  - destruct (negb (Js.indexOf filename t =? -1)) eqn:Hfound.
    + split; [intros _ | reflexivity].
      exists t.
      split; [now left | now apply indexOf_contains].
    + rewrite IH.
      split; intros [u [Hin Hu]].
      * exists u; split; [now right | assumption].
      * destruct Hin as [->|Hin].
        -- apply indexOf_contains in Hu; congruence.
        -- now exists u.
Qed.

Lemma lower_char_idempotent (c : ascii) :
  Js.lower_char (Js.lower_char c) = Js.lower_char c.
Proof.
  destruct c as [[] [] [] [] [] [] [] []]; reflexivity.
Qed.

Lemma toLowerCase_idempotent (s : string) :
  Js.toLowerCase (Js.toLowerCase s) = Js.toLowerCase s.
Proof.
  induction s as [|c s IH]; simpl; [reflexivity|].
  now rewrite lower_char_idempotent, IH.
Qed.

End Strings.

(** ** The grid counters *)

Section Grid.

(** One step of the wrapping counter, for any [LIMIT]: either the test
    of lines 259 and 265 holds and the counter wraps, or it fails and
    the counter moves on. *)
Lemma wrap_step (limit k : Z) :
  0 <= k ->
  (Js.is_zero (Js.rem (primary limit k + 1) limit) = true
   /\ primary limit (k + 1) = 0
   /\ secondary limit (k + 1) = secondary limit k + 1)
  \/
  (Js.is_zero (Js.rem (primary limit k + 1) limit) = false
   /\ primary limit (k + 1) = primary limit k + 1
   /\ secondary limit (k + 1) = secondary limit k).
Proof.
  intros Hk.
  unfold primary, secondary, Js.rem.
  destruct (limit =? 0) eqn:Hl; simpl.
  - right.
    repeat split.
  - apply Z.eqb_neq in Hl.
    set (m := Z.abs limit).
    assert (0 < m) as Hm by (unfold m; lia).
    pose proof (Z.mod_pos_bound k m Hm) as Hp.
    pose proof (Z.div_mod k m ltac:(lia)) as Hdm.
    rewrite <- (Z.rem_abs_r _ limit Hl).
    fold m.
    rewrite Z.rem_mod_nonneg by lia.
    destruct (Z.eq_dec (k mod m + 1) m) as [Hwrap|Hno].
    + left.
      rewrite Hwrap, Z.mod_same by lia.
      repeat split.
      * symmetry.
        apply (Z.mod_unique_pos (k + 1) m (k / m + 1) 0); lia.
      * symmetry.
        apply (Z.div_unique_pos (k + 1) m (k / m + 1) 0); lia.
    + right.
      rewrite (Z.mod_small (k mod m + 1)) by lia.
      repeat split.
      * apply Z.eqb_neq; lia.
      * symmetry.
        apply (Z.mod_unique_pos (k + 1) m (k / m) (k mod m + 1)); lia.
      * symmetry.
        apply (Z.div_unique_pos (k + 1) m (k / m) (k mod m + 1)); lia.
Qed.

(** The counters after [k] valid images are [cell cfg k]. *)
Lemma update_indices_cell (cfg : Config) (k : Z) :
  0 <= k ->
  update_indices cfg (fst (cell cfg k)) (snd (cell cfg k)) = cell cfg (k + 1).
Proof.
  intros Hk.
  unfold update_indices, cell.
  destruct (wrap_step (LIMIT cfg) k Hk) as [[Htest [Hp Hs]]|[Htest [Hp Hs]]];
    destruct (String.eqb (LAYOUT cfg) "rows"); cbn [fst snd];
    rewrite Htest, Hp, Hs; reflexivity.
Qed.

Lemma cell_0 (cfg : Config) : cell cfg 0 = (0, 0).
Proof.
  unfold cell, primary, secondary.
  destruct (String.eqb (LAYOUT cfg) "rows"), (LIMIT cfg =? 0);
    now rewrite ?Zmod_0_l, ?Zdiv_0_l.
Qed.

End Grid.

(** ** The loop of [createSprite] *)

Section Loop.

Variable cfg : Config.

Lemma bind_returned {A B : Type} (a : A) (es : list Event)
    (k : A -> Script B) :
  bind (Returned a, es) k = (fst (k a), (es ++ snd (k a))%list).
Proof. reflexivity. Qed.

Lemma bind_after {A B : Type} (m : Script A) (a : A) (k : A -> Script B) :
  fst m = Returned a ->
  bind m k = (fst (k a), (snd m ++ snd (k a))%list).
Proof.
  intros H.
  unfold bind.
  now rewrite H.
Qed.

Lemma bind_ret_l {A B : Type} (a : A) (k : A -> Script B) :
  bind (ret a) k = k a.
Proof.
  unfold bind, ret; simpl.
  now destruct (k a).
Qed.

Lemma valid_image_is_file (e : Entry) :
  valid_image e = true -> exists f, e = AFile f.
Proof.
  destruct e as [f|n]; [now exists f | discriminate].
Qed.

(** [addLayer] leaves the corner of the new layer at the coordinates,
    wherever the content sat in the image. *)
Lemma addLayer_file (f : File) (dest : Document) (c : Coordinates) :
  addLayer (AFile f) (Some dest) c
  = ret {| doc_name := doc_name dest;
           layers :=
             {| layer_name :=
                  Js.substring0 (Js.lastIndexOf (file_name f) ".")
                    (file_name f);
                bounds0 := x c;
                bounds1 := y c |} :: layers dest |}.
Proof.
  unfold addLayer, ret.
  repeat f_equal; lia.
Qed.

Lemma body_invalid (e : Entry) (st : Locals) :
  valid_image e = false -> createSprite_body cfg e st = ret st.
Proof.
  intros H.
  unfold createSprite_body.
  now rewrite H.
Qed.

(** The body on a valid image once the canvas exists. *)
Lemma body_valid (e : Entry) (d : Document) (k : Z) :
  0 <= k ->
  valid_image e = true ->
  createSprite_body cfg e
    {| new_canvas := true; new_doc := Some d;
       col_index := fst (cell cfg k); row_index := snd (cell cfg k) |}
  = (Returned
       {| new_canvas := true;
          new_doc := Some {| doc_name := doc_name d;
                             layers := placed_layer (place cfg k e)
                                       :: layers d |};
          col_index := fst (cell cfg (k + 1));
          row_index := snd (cell cfg (k + 1)) |},
     [add_layer_event (place cfg k e)]).
Proof.
  intros Hk Hvalid.
  destruct (valid_image_is_file e Hvalid) as [f ->].
  unfold createSprite_body.
  rewrite Hvalid.
  cbn [new_canvas negb new_doc col_index row_index].
  rewrite bind_ret_l.
  cbn [new_canvas negb new_doc col_index row_index].
  rewrite addLayer_file, update_indices_cell by assumption.
  reflexivity.
Qed.

(** The loop once the canvas exists: one call of [addLayer] for each
    valid image, the new layers in front of the old ones. *)
Lemma loop_with_canvas (doc_list : list Entry) :
  forall (d : Document) (k : Z),
  0 <= k ->
  createSprite_loop cfg doc_list
    {| new_canvas := true; new_doc := Some d;
       col_index := fst (cell cfg k); row_index := snd (cell cfg k) |}
  = let images := filter valid_image doc_list in
    let after := k + Z.of_nat (List.length images) in
    (Returned
       {| new_canvas := true;
          new_doc :=
            Some {| doc_name := doc_name d;
                    layers :=
                      (rev (map placed_layer (plan_from cfg k images))
                       ++ layers d)%list |};
          col_index := fst (cell cfg after);
          row_index := snd (cell cfg after) |},
     map add_layer_event (plan_from cfg k images)).
Proof.
  induction doc_list as [|e rest IH]; intros d k Hk.
  - cbn.
    rewrite Z.add_0_r.
    now destruct d.
  - cbn [createSprite_loop filter].
    destruct (valid_image e) eqn:Hvalid.
    + rewrite body_valid, bind_returned by assumption.
      rewrite IH by lia.
      cbn [fst snd List.length plan_from map rev doc_name layers app].
      rewrite <- app_assoc, Nat2Z.inj_succ.
      replace (k + 1 + Z.of_nat (List.length (filter valid_image rest)))
        with (k + Z.succ (Z.of_nat (List.length (filter valid_image rest))))
        by lia.
      reflexivity.
    + rewrite body_invalid, bind_ret_l by assumption.
      now apply IH.
Qed.

(** The body on the first valid image: the canvas is created, then
    the image is placed at the origin. *)
Lemma body_first (e : Entry) :
  valid_image e = true ->
  createSprite_body cfg e start
  = (Returned
       {| new_canvas := true;
          new_doc := Some {| doc_name := "sprite";
                             layers := [placed_layer (place cfg 0 e);
                                        empty_layer] |};
          col_index := fst (cell cfg 1);
          row_index := snd (cell cfg 1) |},
     [DocumentsAdd 10000 10000 72 "sprite" TRANSPARENT;
      add_layer_event (place cfg 0 e)]).
Proof.
  intros Hvalid.
  destruct (valid_image_is_file e Hvalid) as [f ->].
  pose proof (update_indices_cell cfg 0 ltac:(lia)) as Hnext.
  rewrite cell_0 in Hnext.
  cbn [fst snd Z.add] in Hnext.
  unfold createSprite_body.
  rewrite Hvalid.
  unfold start, createCanvas.
  cbn [bind call ret fst snd app negb new_canvas new_doc col_index row_index].
  rewrite addLayer_file.
  cbn [bind call ret fst snd app negb new_canvas new_doc col_index row_index
       doc_name layers].
  rewrite Hnext.
  unfold place, placed_layer, add_layer_event.
  rewrite cell_0.
  reflexivity.
Qed.

(** The loop from the start: nothing at all without a valid image,
    else the canvas, created once, and then the placements. *)
Lemma loop_from_start (doc_list : list Entry) :
  createSprite_loop cfg doc_list start
  = match filter valid_image doc_list with
    | [] => ret start
    | _ :: _ =>
        let images := filter valid_image doc_list in
        let after := Z.of_nat (List.length images) in
        (Returned
           {| new_canvas := true;
              new_doc :=
                Some {| doc_name := "sprite";
                        layers :=
                          (rev (map placed_layer (plan_from cfg 0 images))
                           ++ [empty_layer])%list |};
              col_index := fst (cell cfg after);
              row_index := snd (cell cfg after) |},
         DocumentsAdd 10000 10000 72 "sprite" TRANSPARENT
         :: map add_layer_event (plan_from cfg 0 images))
    end.
Proof.
  induction doc_list as [|e rest IH].
  - reflexivity.
  - cbn [createSprite_loop filter].
    destruct (valid_image e) eqn:Hvalid.
    + rewrite body_first, bind_returned by assumption.
      rewrite (loop_with_canvas rest _ 1) by lia.
      cbn [fst snd List.length plan_from map rev doc_name layers app].
      change (0 + 1) with 1.
      rewrite <- app_assoc, Nat2Z.inj_succ.
      replace (1 + Z.of_nat (List.length (filter valid_image rest)))
        with (Z.succ (Z.of_nat (List.length (filter valid_image rest))))
        by lia.
      reflexivity.
    + rewrite body_invalid, bind_ret_l by assumption.
      exact IH.
Qed.

End Loop.

(** ** The exporter *)

Section Exporter.

Variable ps : Engine.

Lemma console_app (a b : list Event) :
  console (a ++ b) = console a ++ console b.
Proof.
  induction a as [|e a IH]; simpl; [reflexivity|].
  destruct e; try assumption.
  now rewrite IH, append_assoc.
Qed.

Lemma writes_are_quiet (j : list Event) :
  forallb is_write j = true -> canvases j = O /\ placements j = [].
Proof.
  induction j as [|e j IH]; simpl; [now split|].
  destruct e; simpl; try discriminate.
  exact IH.
Qed.

Lemma separated_cons (sep p : string) (parts : list string) :
  parts <> [] ->
  separated sep (p :: parts) = p ++ sep ++ separated sep parts.
Proof.
  destruct parts; [congruence | reflexivity].
Qed.

(** The loop over the first [length ls] layers of the document visits
    them from the last to the first, whatever lies beyond them. *)
Lemma export_loop (format name : string) (ls : list Layer) :
  forall extra : list Layer,
  let m :=
    outputCoordinates_loop ps format
      {| doc_name := name; layers := (ls ++ extra)%list |} (List.length ls) in
  fst m = Returned tt
  /\ forallb is_write (snd m) = true
  /\ console (snd m)
     = if String.eqb format "json"
       then separated ","
              (map (fun l => json_line ps l ++ Js.newline) (rev ls))
       else concat_text (map (fun l => css_line ps l ++ Js.newline) (rev ls)).
Proof.
  induction ls as [|l ls IH] using rev_ind; intros extra m; subst m.
  - cbn.
    now destruct (String.eqb format "json").
  - rewrite length_app, Nat.add_1_r, rev_unit.
    cbn [outputCoordinates_loop layers map].
    rewrite <- app_assoc.
    rewrite nth_error_app2, Nat.sub_diag by lia.
    cbn [nth_error app].
    destruct (IH (l :: extra)) as [Hout [Hwrites Hconsole]].
    destruct (String.eqb format "json") eqn:Hformat.
    + destruct ls as [|l0 ls0] using rev_ind.
      * cbn in *.
        now rewrite append_nil_r.
      * clear IHls0.
        assert ((0 <? Z.of_nat (List.length (ls0 ++ [l0]))) = true) as Hpos.
        { rewrite length_app, Nat.add_1_r. apply Z.ltb_lt. lia. }
        rewrite Hpos.
        script_steps.
        rewrite Hout.
        repeat split.
        -- cbn [forallb is_write andb]. exact Hwrites.
        -- cbn [console].
           rewrite Hconsole, separated_cons.
           ++ reflexivity.
           ++ rewrite rev_unit. discriminate.
    + script_steps.
      rewrite Hout.
      repeat split.
      * cbn [forallb is_write andb]. exact Hwrites.
      * cbn [console concat_text].
        now rewrite Hconsole.
Qed.

(** [outputCoordinates] returns, and what it writes is the text of the
    layers from the last index to index 0. *)
Lemma outputCoordinates_spec (cfg : Config) (doc : Document) :
  fst (outputCoordinates ps cfg doc) = Returned tt
  /\ exists ws,
       snd (outputCoordinates ps cfg doc) = OutputCoordinates :: ws
       /\ forallb is_write ws = true
       /\ console ws = export_text ps cfg (rev (layers doc)).
Proof.
  destruct doc as [name ls].
  pose proof (export_loop (Js.toLowerCase (OUTPUT_FORMAT cfg)) name ls [])
    as Hloop.
  rewrite app_nil_r in Hloop.
  destruct Hloop as [Hout [Hwrites Hconsole]].
  unfold outputCoordinates, export_text, json_text, css_text.
  cbn [layers].
  rewrite (bind_after _ tt _ Hout).
  destruct (String.eqb (Js.toLowerCase (OUTPUT_FORMAT cfg)) "json");
    script_steps;
    (split; [reflexivity|]);
    eexists; (split; [reflexivity|]).
  - split.
    + cbn [forallb is_write andb].
      now rewrite forallb_app, Hwrites.
    + cbn [console].
      rewrite console_app, Hconsole.
      cbn [console].
      now rewrite append_nil_r, !append_assoc.
  - rewrite app_nil_r.
    now split.
Qed.

End Exporter.

(** ** A whole run *)

Section Run.

Variable ps : Engine.
Variable cfg : Config.

Lemma cleanUp_spec (name : string) (ls : list Layer) (l : Layer) :
  cleanUp ps {| doc_name := name; layers := (ls ++ [l])%list |}
  = (Returned
       {| doc_name := name;
          layers := map (shift (- fst (trim_corner ps ls))
                           (- snd (trim_corner ps ls))) ls |},
     [CleanUp]).
Proof.
  unfold cleanUp.
  cbn [layers doc_name].
  destruct (ls ++ [l])%list eqn:Hls.
  - now destruct ls.
  - rewrite <- Hls, removelast_last.
    reflexivity.
Qed.

(** The sprite that [outputCoordinates] is given at line 277. *)
Lemma createSprite_some (user : list Reply) (folder : Folder) :
  createSprite ps cfg user (Some folder) = createSprite_folder ps cfg folder.
Proof. now destruct user. Qed.

(** What a run on a folder does, from the first call to the last. *)
Lemma folder_run (folder : Folder) :
  createSprite_folder ps cfg folder
  = match accepted folder with
    | [] => ret tt
    | _ :: _ =>
        (Returned tt,
         (DocumentsAdd 10000 10000 72 "sprite" TRANSPARENT
          :: map add_layer_event (plan_from cfg 0 (accepted folder))
          ++ CleanUp
          :: snd (outputCoordinates ps cfg
                    {| doc_name := "sprite";
                       layers :=
                         rev (sprite_layers ps cfg (accepted folder)) |}))%list)
    end.
Proof.
  unfold createSprite_folder.
  rewrite loop_from_start.
  fold (accepted folder).
  destruct (accepted folder) as [|e images] eqn:Haccepted.
  - reflexivity.
  - rewrite <- Haccepted.
    rewrite bind_returned.
    cbn [new_canvas new_doc].
    rewrite cleanUp_spec, bind_returned.
    unfold sprite_layers.
    cbn beta iota zeta delta [fst snd app].
    match goal with
    | |- context [outputCoordinates ps cfg ?d] =>
        destruct (outputCoordinates_spec ps cfg d) as [Hout _]
    end.
    rewrite Hout.
    now rewrite !map_rev.
Qed.

Lemma placements_app (a b : list Event) :
  placements (a ++ b) = (placements a ++ placements b)%list.
Proof.
  induction a as [|e a IH]; simpl; [reflexivity|].
  destruct e; simpl; now rewrite ?IH.
Qed.

Lemma canvases_app (a b : list Event) :
  canvases (a ++ b) = (canvases a + canvases b)%nat.
Proof.
  induction a as [|e a IH]; simpl; [reflexivity|].
  destruct e; simpl; now rewrite ?IH.
Qed.

Lemma placements_add_layer (plan : list Placement) :
  placements (map add_layer_event plan) = plan.
Proof.
  induction plan as [|p l IH]; simpl; [reflexivity|].
  destruct p.
  now rewrite IH.
Qed.

Lemma canvases_add_layer (plan : list Placement) :
  canvases (map add_layer_event plan) = O.
Proof.
  induction plan as [|p l IH]; simpl; [reflexivity | exact IH].
Qed.

Lemma console_add_layer (plan : list Placement) :
  console (map add_layer_event plan) = "".
Proof.
  induction plan as [|p l IH]; simpl; [reflexivity | exact IH].
Qed.

#[local] Hint Rewrite placements_app placements_add_layer
  canvases_app canvases_add_layer console_app console_add_layer
  @app_nil_r rev_involutive : journal.

(** The calls of [addLayer] of a run are the plan for the accepted
    images of the folder. *)
Lemma run_placements (folder : Folder) :
  placements (snd (createSprite_folder ps cfg folder))
  = plan_from cfg 0 (accepted folder).
Proof.
  rewrite folder_run.
  destruct (accepted folder) as [|e images] eqn:Haccepted.
  - reflexivity.
  - rewrite <- Haccepted.
    export_facts outputCoordinates_spec Hout ws Hj Hws Hconsole.
    rewrite Hj.
    destruct (writes_are_quiet ws Hws) as [_ Hquiet].
    cbn [snd placements].
    autorewrite with journal.
    cbn [placements].
    rewrite Hquiet.
    now autorewrite with journal.
Qed.

(** A run creates one canvas when an image is accepted, none else. *)
Lemma run_canvases (folder : Folder) :
  canvases (snd (createSprite_folder ps cfg folder))
  = match accepted folder with [] => O | _ :: _ => 1%nat end.
Proof.
  rewrite folder_run.
  destruct (accepted folder) as [|e images] eqn:Haccepted.
  - reflexivity.
  - rewrite <- Haccepted.
    export_facts outputCoordinates_spec Hout ws Hj Hws Hconsole.
    rewrite Hj.
    destruct (writes_are_quiet ws Hws) as [Hquiet _].
    cbn [snd canvases].
    autorewrite with journal.
    cbn [canvases].
    now rewrite Hquiet.
Qed.

(** What a run prints: the records of the layers in the order in which
    the images were placed. *)
Lemma run_console (folder : Folder) :
  console (snd (createSprite_folder ps cfg folder))
  = match accepted folder with
    | [] => ""
    | _ :: _ => export_text ps cfg (sprite_layers ps cfg (accepted folder))
    end.
Proof.
  rewrite folder_run.
  destruct (accepted folder) as [|e images] eqn:Haccepted.
  - reflexivity.
  - rewrite <- Haccepted.
    export_facts outputCoordinates_spec Hout ws Hj Hws Hconsole.
    rewrite Hj.
    cbn [snd console layers] in *.
    autorewrite with journal in *.
    cbn [console String.append].
    exact Hconsole.
Qed.

Lemma folder_returns (folder : Folder) :
  fst (createSprite_folder ps cfg folder) = Returned tt.
Proof.
  rewrite folder_run.
  now destruct (accepted folder).
Qed.

(** Every run returns: nothing in the script throws, whatever the
    configuration, the folder and the user. *)
Lemma createSprite_returns (user : list Reply) :
  forall folder, fst (createSprite ps cfg user folder) = Returned tt.
Proof.
  induction user as [|reply later IH]; intros [f|]; cbn [createSprite].
  - apply folder_returns.
  - reflexivity.
  - apply folder_returns.
  - destruct reply as [|selected]; [reflexivity|].
    script_steps.
    apply IH.
Qed.

Lemma plan_images (images : list Entry) :
  forall k, map placed_image (plan_from cfg k images) = images.
Proof.
  induction images as [|e images IH]; intros k; simpl; [reflexivity|].
  now rewrite IH.
Qed.

Lemma plan_cells (images : list Entry) :
  forall k : nat,
  map placed_cell (plan_from cfg (Z.of_nat k) images)
  = map (fun i => cell cfg (Z.of_nat i)) (seq k (List.length images)).
Proof.
  induction images as [|e images IH]; intros k; simpl; [reflexivity|].
  replace (Z.of_nat k + 1) with (Z.of_nat (S k)) by lia.
  rewrite IH.
  unfold placed_cell at 1, place.
  cbn [placed_col placed_row].
  now rewrite <- surjective_pairing.
Qed.

Lemma plan_coordinates (images : list Entry) :
  forall k p,
  In p (plan_from cfg k images) ->
  placed_at p = {| x := COL_SPACING cfg * placed_col p;
                   y := ROW_SPACING cfg * placed_row p |}.
Proof.
  induction images as [|e images IH]; intros k p; simpl; [tauto|].
  intros [<-|Hin]; [reflexivity | now apply (IH (k + 1))].
Qed.

End Run.

(** ** The file filter *)

(** C6.  The filter (line 241) accepts a file exactly when the
    lowercase form of its name contains one of [.jpg], [.jpeg], [.gif],
    [.png], [.tif] anywhere, not only at its end: [photo.PNG],
    [a.b.jpeg] and [notes.jpgx] are accepted, [readme.txt] and a bare
    name without extension are not. *)
Theorem file_filter_substring :
  (forall f : File,
     valid_image (AFile f) = true <->
     exists t, In t [".jpg"; ".jpeg"; ".gif"; ".png"; ".tif"]
               /\ contains (Js.toLowerCase (file_name f)) t)
  /\ valid_image (file "photo.PNG") = true
  /\ valid_image (file "a.b.jpeg") = true
  /\ valid_image (file "notes.jpgx") = true
  /\ valid_image (file "readme.txt") = false
  /\ valid_image (file "drafts") = false.
Proof.
  split; [|repeat split].
  intros f.
  unfold valid_image, isValidFile.
  apply isValidFile_loop_spec.
Qed.

(** ** The grid *)

(** C1.  With [LAYOUT = "cols"] and a positive [LIMIT = L], the images
    placed are the accepted entries of the folder, in their order, and
    the k-th of them (from 0) is placed with column index [k mod L] and
    row index [k / L]: entries that are not accepted do not move the
    counters. *)
Theorem cols_grid_index (ps : Engine) (cfg : Config) (user : list Reply)
    (folder : Folder) :
  LAYOUT cfg = "cols" ->
  0 < LIMIT cfg ->
  let j := journal (createSprite ps cfg user (Some folder)) in
  map placed_image (placements j) = accepted folder
  /\ map placed_cell (placements j)
     = map (fun k => (Z.of_nat k mod LIMIT cfg, Z.of_nat k / LIMIT cfg))
         (seq 0 (List.length (accepted folder))).
Proof.
  intros Hlayout Hlimit j.
  subst j.
  unfold journal.
  rewrite createSprite_some, run_placements, plan_images.
  split; [reflexivity|].
  pose proof (plan_cells cfg (accepted folder) 0) as Hcells.
  cbn [Z.of_nat] in Hcells.
  rewrite Hcells.
  apply map_ext.
  intros k.
  unfold cell, primary, secondary.
  rewrite Hlayout.
  cbn [String.eqb Ascii.eqb Bool.eqb].
  destruct (Z.eqb_spec (LIMIT cfg) 0) as [H0|_]; [lia|].
  now rewrite Z.abs_eq by lia.
Qed.

Lemma cols_grid_index_witness :
  LAYOUT default_config = "cols"
  /\ 0 < LIMIT default_config
  /\ map placed_cell
       (placements
          (journal (createSprite photoshop default_config []
                      (Some icons_folder))))
     = [(0, 0); (0, 1)].
Proof.
  split; [reflexivity|].
  split; [reflexivity|].
  apply (cols_grid_index photoshop default_config [] icons_folder);
    reflexivity.
Defined.

(** The example of the specification: with the default spacing of 100
    and 50, one column, three images land at (0,0), (0,50), (0,100). *)
Example single_column :
  map placed_at
    (placements
       (journal
          (createSprite photoshop default_config []
             (Some {| getFiles := [file "a.png"; file "b.gif"; file "c.jpg"] |}))))
  = [{| x := 0; y := 0 |}; {| x := 0; y := 50 |}; {| x := 0; y := 100 |}].
Proof. reflexivity. Qed.

(** C2.  The k-th image placed is the k-th accepted entry; it is placed
    at [x = COL_SPACING * col_index], [y = ROW_SPACING * row_index];
    and for a positive [LIMIT = L], under ["rows"] the row index is the
    wrapping counter [k mod L] and the column index counts the wraps
    [k / L], while under ["cols"] the two indices change roles. *)
Theorem placement_coordinates (ps : Engine) (cfg : Config)
    (user : list Reply) (folder : Folder) (k : nat) (p : Placement) :
  nth_error (placements (journal (createSprite ps cfg user (Some folder)))) k
  = Some p ->
  nth_error (accepted folder) k = Some (placed_image p)
  /\ placed_at p = {| x := COL_SPACING cfg * placed_col p;
                      y := ROW_SPACING cfg * placed_row p |}
  /\ (0 < LIMIT cfg ->
      if String.eqb (LAYOUT cfg) "rows"
      then placed_row p = Z.of_nat k mod LIMIT cfg
           /\ placed_col p = Z.of_nat k / LIMIT cfg
      else placed_col p = Z.of_nat k mod LIMIT cfg
           /\ placed_row p = Z.of_nat k / LIMIT cfg).
Proof.
  unfold journal.
  rewrite createSprite_some, run_placements.
  intros Hk.
  assert (nth_error (accepted folder) k = Some (placed_image p)) as Himage.
  { rewrite <- (plan_images cfg (accepted folder) 0).
    now apply map_nth_error. }
  split; [exact Himage|split].
  - apply (plan_coordinates cfg (accepted folder) 0).
    now apply nth_error_In with k.
  - intros Hlimit.
    apply (map_nth_error placed_cell) in Hk.
    pose proof (plan_cells cfg (accepted folder) 0) as Hcells.
    cbn [Z.of_nat] in Hcells.
    rewrite Hcells in Hk.
    assert (k < List.length (accepted folder))%nat as Hlt.
    { apply nth_error_Some. now rewrite Himage. }
    rewrite nth_error_map, nth_error_seq in Hk.
    apply Nat.ltb_lt in Hlt.
    rewrite Hlt in Hk.
    cbn [option_map Nat.add] in Hk.
    injection Hk as Hcell.
    unfold cell, primary, secondary, placed_cell in Hcell.
    destruct (Z.eqb_spec (LIMIT cfg) 0) as [H0|_]; [lia|].
    rewrite Z.abs_eq in Hcell by lia.
    destruct (String.eqb (LAYOUT cfg) "rows");
      injection Hcell as Hcol Hrow; now split.
Qed.

Lemma placement_coordinates_witness :
  let cfg := with_LAYOUT "rows" (with_LIMIT 2 default_config) in
  let folder :=
    {| getFiles := [file "a.png"; file "notes.txt"; file "b.png";
                    file "c.png"; file "d.png"] |} in
  let p :=
    {| placed_image := file "d.png"; placed_col := 1; placed_row := 1;
       placed_at := {| x := 100; y := 50 |} |} in
  nth_error (placements (journal (createSprite photoshop cfg []
                                    (Some folder)))) 3
  = Some p
  /\ nth_error (accepted folder) 3 = Some (placed_image p)
  /\ placed_at p = {| x := COL_SPACING cfg * placed_col p;
                      y := ROW_SPACING cfg * placed_row p |}
  /\ placed_row p = 3 mod 2
  /\ placed_col p = 3 / 2.
Proof.
  intros cfg folder p.
  split; [reflexivity|].
  destruct (placement_coordinates photoshop cfg [] folder 3 p eq_refl)
    as [Himage [Hat Hcell]].
  split; [exact Himage|].
  split; [exact Hat|].
  exact (Hcell eq_refl).
Defined.

(** ** The exporter *)

Lemma outputCoordinates_console (ps : Engine) (cfg : Config) (doc : Document) :
  console (journal (outputCoordinates ps cfg doc))
  = export_text ps cfg (rev (layers doc)).
Proof.
  destruct (outputCoordinates_spec ps cfg doc) as [_ [ws [Hj [_ Hconsole]]]].
  unfold journal.
  now rewrite Hj.
Qed.

Lemma shifted_layer_names (cfg : Config) (dx dy : Z) (images : list Entry) :
  forall k,
  map layer_name (map (shift dx dy) (map placed_layer (plan_from cfg k images)))
  = map (fun e => Js.substring0 (Js.lastIndexOf (entry_name e) ".")
                    (entry_name e)) images.
Proof.
  induction images as [|e images IH]; intros k; simpl; [reflexivity|].
  now rewrite IH.
Qed.

Lemma sprite_layer_names (ps : Engine) (cfg : Config) (images : list Entry) :
  map layer_name (sprite_layers ps cfg images)
  = map (fun e => Js.substring0 (Js.lastIndexOf (entry_name e) ".")
                    (entry_name e)) images.
Proof.
  unfold sprite_layers.
  apply shifted_layer_names.
Qed.

(** C3, as the specification has it, fails: with the layers of [a.png]
    and [b.png] added in this order, [b] is layer 0, the topmost, and
    the json text has the record of [a] first. *)
Lemma export_order_counterexample :
  let cfg := with_OUTPUT_FORMAT "json" default_config in
  let a := {| layer_name := "a"; bounds0 := 0; bounds1 := 0 |} in
  let b := {| layer_name := "b"; bounds0 := 0; bounds1 := 50 |} in
  console (journal (createSprite photoshop cfg [] (Some ab_folder)))
  = json_text photoshop [a; b]
  /\ console (journal (outputCoordinates photoshop cfg
                         {| doc_name := "sprite"; layers := [b; a] |}))
     = json_text photoshop [a; b]
  /\ json_text photoshop [a; b] <> json_text photoshop [b; a].
Proof.
  intros cfg a b.
  split; [vm_compute; reflexivity|].
  split; [vm_compute; reflexivity|].
  vm_compute.
  discriminate.
Qed.

(** C3, amended.  The exporter writes one record for each layer, from
    the layer of the last index to layer 0, that is from the bottommost
    to the topmost; as every image is added as layer 0, the records of
    a run come in the order in which the images were placed, the first
    image placed first. *)
Theorem export_in_placement_order (ps : Engine) (cfg : Config) :
  (forall doc : Document,
     console (journal (outputCoordinates ps cfg doc))
     = export_text ps cfg (rev (layers doc)))
  /\ (forall (user : list Reply) (folder : Folder),
        console (journal (createSprite ps cfg user (Some folder)))
        = match accepted folder with
          | [] => ""
          | _ :: _ =>
              export_text ps cfg (sprite_layers ps cfg (accepted folder))
          end)
  /\ (forall images : list Entry,
        map layer_name (sprite_layers ps cfg images)
        = map (fun e => Js.substring0 (Js.lastIndexOf (entry_name e) ".")
                          (entry_name e)) images).
Proof.
  split; [|split].
  - apply outputCoordinates_console.
  - intros user folder.
    unfold journal.
    rewrite createSprite_some.
    apply run_console.
  - apply sprite_layer_names.
Qed.


(** ** The canvas and the prompts *)

Lemma createSprite_canvases (ps : Engine) (cfg : Config) (user : list Reply) :
  forall folder,
  (canvases (snd (createSprite ps cfg user folder)) <= 1)%nat.
Proof.
  induction user as [|reply later IH]; intros [f|].
  - rewrite createSprite_some, run_canvases.
    destruct (accepted f); lia.
  - cbn. lia.
  - rewrite createSprite_some, run_canvases.
    destruct (accepted f); lia.
  - destruct reply as [|selected]; [cbn; lia|].
    cbn [createSprite getFolder bind call ret fst snd app canvases].
    apply IH.
Qed.

(** C8.  The canvas, 10000 by 10000 and transparent, is created when
    the first image is accepted, just before that image is placed, and
    never again; a run on a folder without an accepted image makes no
    call at all: no canvas, no clean-up, no export.  With the prompts
    taken in, a whole run creates at most one canvas. *)
Theorem canvas_created_lazily (ps : Engine) (cfg : Config)
    (user : list Reply) (folder : Folder) :
  match accepted folder with
  | [] => journal (createSprite ps cfg user (Some folder)) = []
  | first :: _ =>
      exists tail,
        journal (createSprite ps cfg user (Some folder))
        = DocumentsAdd 10000 10000 72 "sprite" TRANSPARENT
          :: AddLayer first 0 0 {| x := 0; y := 0 |}
          :: tail
        /\ canvases tail = O
  end
  /\ (forall selected,
        canvases (journal (main ps cfg selected user)) <= 1)%nat.
Proof.
  split.
  - unfold journal.
    rewrite createSprite_some.
    pose proof (run_canvases ps cfg folder) as Hcount.
    rewrite folder_run in *.
    destruct (accepted folder) as [|first rest]; [reflexivity|].
    cbn [snd plan_from map app] in *.
    unfold add_layer_event at 1, place at 1 2 3 4.
    unfold add_layer_event at 1, place at 1 2 3 4 in Hcount.
    rewrite cell_0, !Z.mul_0_r in *.
    cbn [fst snd placed_image placed_col placed_row placed_at] in *.
    eexists.
    split; [reflexivity|].
    cbn [canvases] in Hcount.
    lia.
  - intros selected.
    unfold journal, main, getFolder.
    cbn [bind call ret fst snd app canvases].
    apply createSprite_canvases.
Qed.

(** C4: the script does not do this.  On a folder without any
    supported image the run ends after the first dialog: the message
    about a folder without recognized image formats is not shown and no
    other folder is asked for, whatever the user was ready to answer.
    (The message is shown when the dialog is cancelled instead.) *)
Theorem no_images_no_prompt (ps : Engine) (cfg : Config) (user : list Reply)
    (folder : Folder) :
  accepted folder = [] ->
  main ps cfg (Some folder) user = (Returned tt, [SelectDialog]).
Proof.
  intros Hnone.
  unfold main, getFolder.
  script_steps.
  rewrite createSprite_some, folder_run, Hnone.
  reflexivity.
Qed.

Lemma no_images_no_prompt_witness :
  accepted notes_folder = []
  /\ main photoshop default_config (Some notes_folder)
       [TryAgain (Some icons_folder)]
     = (Returned tt, [SelectDialog]).
Proof.
  split; [reflexivity|].
  now apply (no_images_no_prompt photoshop default_config
               [TryAgain (Some icons_folder)] notes_folder).
Defined.

(** ** The configuration *)

(** C5, as the specification has it, fails: a [LIMIT] of 0 or below, a
    [LAYOUT] and an [OUTPUT_FORMAT] unheard of are not rejected; the
    run returns after the images were placed and the text printed. *)
Lemma configuration_counterexample :
  (let cfg := with_LIMIT 0 default_config in
   main photoshop cfg (Some ab_folder) []
   = (Returned tt,
      [SelectDialog;
       DocumentsAdd 10000 10000 72 "sprite" TRANSPARENT;
       AddLayer (file "a.png") 0 0 {| x := 0; y := 0 |};
       AddLayer (file "b.png") 1 0 {| x := 100; y := 0 |};
       CleanUp; OutputCoordinates;
       Write (".a {background-position: -0px -0px;}" ++ Js.newline);
       Write (".b {background-position: -100px -0px;}" ++ Js.newline)]))
  /\ (let cfg := with_LIMIT (-1) default_config in
      outcome (main photoshop cfg (Some ab_folder) []) = Returned tt
      /\ map placed_image
           (placements (journal (main photoshop cfg (Some ab_folder) [])))
         = [file "a.png"; file "b.png"])
  /\ (let cfg :=
        with_LAYOUT "diagonal" (with_OUTPUT_FORMAT "xml" default_config) in
      outcome (main photoshop cfg (Some ab_folder) []) = Returned tt
      /\ map placed_image
           (placements (journal (main photoshop cfg (Some ab_folder) [])))
         = [file "a.png"; file "b.png"]).
Proof.
  repeat split; vm_compute; reflexivity.
Qed.

Section Defaults.

Variable ps : Engine.

Lemma cell_layout (cfg : Config) (v : string) (k : Z) :
  String.eqb v "rows" = String.eqb (LAYOUT cfg) "rows" ->
  cell (with_LAYOUT v cfg) k = cell cfg k.
Proof.
  intros H.
  unfold cell.
  cbn [LAYOUT LIMIT with_LAYOUT].
  now rewrite H.
Qed.

Lemma plan_layout (cfg : Config) (v : string) (images : list Entry) :
  String.eqb v "rows" = String.eqb (LAYOUT cfg) "rows" ->
  forall k, plan_from (with_LAYOUT v cfg) k images = plan_from cfg k images.
Proof.
  intros H.
  induction images as [|e images IH]; intros k; cbn [plan_from];
    [reflexivity|].
  rewrite IH.
  unfold place.
  now rewrite cell_layout.
Qed.

Lemma folder_layout (cfg : Config) (v : string) (folder : Folder) :
  String.eqb v "rows" = String.eqb (LAYOUT cfg) "rows" ->
  createSprite_folder ps (with_LAYOUT v cfg) folder
  = createSprite_folder ps cfg folder.
Proof.
  intros H.
  rewrite !folder_run.
  unfold sprite_layers.
  now rewrite !plan_layout.
Qed.

Lemma createSprite_layout (cfg : Config) (v : string) (user : list Reply) :
  String.eqb v "rows" = String.eqb (LAYOUT cfg) "rows" ->
  forall folder,
  createSprite ps (with_LAYOUT v cfg) user folder
  = createSprite ps cfg user folder.
Proof.
  intros H.
  induction user as [|reply later IH]; intros [f|]; cbn [createSprite];
    try (now apply folder_layout); try reflexivity.
  destruct reply as [|selected]; [reflexivity|].
  script_steps.
  now rewrite IH.
Qed.

Lemma outputCoordinates_format (cfg : Config) (v : string) (doc : Document) :
  String.eqb (Js.toLowerCase v) "json"
  = String.eqb (Js.toLowerCase (OUTPUT_FORMAT cfg)) "json" ->
  outputCoordinates ps (with_OUTPUT_FORMAT v cfg) doc
  = outputCoordinates ps cfg doc.
Proof.
  intros H.
  unfold outputCoordinates.
  cbn [OUTPUT_FORMAT with_OUTPUT_FORMAT].
  rewrite H.
  f_equal.
  assert (forall f g n,
            String.eqb f "json" = String.eqb g "json" ->
            outputCoordinates_loop ps f doc n
            = outputCoordinates_loop ps g doc n) as Hloop.
  { intros f g n Hfg.
    induction n as [|i IH]; cbn [outputCoordinates_loop]; [reflexivity|].
    now rewrite Hfg, IH. }
  now rewrite (Hloop _ _ _ H).
Qed.

End Defaults.

(** C9.  Values that are not recognized fall back on the defaults: an
    [OUTPUT_FORMAT] whose lowercase form is not [json] gives the css
    output, one rule a layer and no bracket; [OUTPUT_FORMAT] is
    compared in lowercase, so that [JSON] gives the json output; a
    [LAYOUT] other than the very string [rows], [ROWS] included, runs
    like ["cols"], the column counter being the one that moves and
    wraps. *)
Theorem unrecognized_values_default (ps : Engine) (cfg : Config) :
  (forall doc,
     Js.toLowerCase (OUTPUT_FORMAT cfg) <> "json" ->
     outcome (outputCoordinates ps cfg doc) = Returned tt
     /\ console (journal (outputCoordinates ps cfg doc))
        = concat_text
            (map (fun l =>
                    css_rule (layer_name l)
                      ("-" ++ bound_text ps (bounds0 l))
                      ("-" ++ bound_text ps (bounds1 l)) ++ Js.newline)
               (rev (layers doc)))
     /\ outputCoordinates ps cfg doc
        = outputCoordinates ps (with_OUTPUT_FORMAT "css" cfg) doc)
  /\ (forall doc,
        Js.toLowerCase (OUTPUT_FORMAT cfg) = "json" ->
        outcome (outputCoordinates ps cfg doc) = Returned tt
        /\ console (journal (outputCoordinates ps cfg doc))
           = "[" ++ Js.newline
             ++ separated ","
                  (map (fun l =>
                          json_object (layer_name l)
                            (bound_text ps (bounds0 l))
                            ("-" ++ bound_text ps (bounds1 l))
                          ++ Js.newline)
                     (rev (layers doc)))
             ++ "]" ++ Js.newline)
  /\ (forall doc,
        outputCoordinates ps cfg doc
        = outputCoordinates ps
            (with_OUTPUT_FORMAT (Js.toLowerCase (OUTPUT_FORMAT cfg)) cfg) doc)
  /\ (forall user folder,
        LAYOUT cfg <> "rows" ->
        createSprite ps cfg user folder
        = createSprite ps (with_LAYOUT "cols" cfg) user folder)
  /\ (forall c r,
        LAYOUT cfg <> "rows" ->
        update_indices cfg c r
        = if Js.is_zero (Js.rem (c + 1) (LIMIT cfg))
          then (0, r + 1) else (c + 1, r)).
Proof.
  split; [|split; [|split; [|split]]].
  - intros doc Hformat.
    destruct (outputCoordinates_spec ps cfg doc) as [Hout _].
    split; [exact Hout|].
    apply String.eqb_neq in Hformat.
    split.
    + rewrite outputCoordinates_console.
      unfold export_text.
      now rewrite Hformat.
    + symmetry.
      apply outputCoordinates_format.
      now rewrite Hformat.
  - intros doc Hformat.
    destruct (outputCoordinates_spec ps cfg doc) as [Hout _].
    split; [exact Hout|].
    rewrite outputCoordinates_console.
    unfold export_text.
    now rewrite Hformat.
  - intros doc.
    symmetry.
    apply outputCoordinates_format.
    now rewrite toLowerCase_idempotent.
  - intros user folder Hlayout.
    symmetry.
    apply createSprite_layout.
    apply String.eqb_neq in Hlayout.
    now rewrite Hlayout.
  - intros c r Hlayout.
    unfold update_indices.
    apply String.eqb_neq in Hlayout.
    now rewrite Hlayout.
Qed.

Lemma unrecognized_values_default_witness :
  let cfg := with_LAYOUT "ROWS" (with_OUTPUT_FORMAT "XML" default_config) in
  let doc :=
    {| doc_name := "sprite";
       layers := [{| layer_name := "b"; bounds0 := 0; bounds1 := 50 |};
                  {| layer_name := "a"; bounds0 := 0; bounds1 := 0 |}] |} in
  Js.toLowerCase (OUTPUT_FORMAT cfg) <> "json"
  /\ LAYOUT cfg <> "rows"
  /\ Js.toLowerCase (OUTPUT_FORMAT (with_OUTPUT_FORMAT "JSON" cfg)) = "json"
  /\ console (journal (outputCoordinates photoshop cfg doc))
     = ".a {background-position: -0px -0px;}" ++ Js.newline
       ++ ".b {background-position: -0px -50px;}" ++ Js.newline
  /\ console (journal (outputCoordinates photoshop
                         (with_OUTPUT_FORMAT "JSON" cfg) doc))
     = json_text photoshop (rev (layers doc))
  /\ createSprite photoshop cfg [] (Some ab_folder)
     = createSprite photoshop (with_LAYOUT "cols" cfg) [] (Some ab_folder)
  /\ update_indices cfg 0 0 = (0, 1).
Proof.
  intros cfg doc.
  assert (Js.toLowerCase (OUTPUT_FORMAT cfg) <> "json") as Hformat
    by (vm_compute; discriminate).
  assert (LAYOUT cfg <> "rows") as Hlayout by (vm_compute; discriminate).
  assert (Js.toLowerCase (OUTPUT_FORMAT (with_OUTPUT_FORMAT "JSON" cfg))
          = "json") as Hjson by reflexivity.
  destruct (unrecognized_values_default photoshop cfg)
    as [Hcss [_ [_ [Hcols Hstep]]]].
  destruct (unrecognized_values_default photoshop
              (with_OUTPUT_FORMAT "JSON" cfg)) as [_ [Hupper _]].
  split; [exact Hformat|].
  split; [exact Hlayout|].
  split; [exact Hjson|].
  split; [exact (proj1 (proj2 (Hcss doc Hformat)))|].
  split; [exact (proj2 (Hupper doc Hjson))|].
  split; [exact (Hcols _ _ Hlayout)|].
  exact (Hstep 0 0 Hlayout).
Defined.

(** C10.  With [LIMIT = 0] nothing faults: the test of the remainder
    against 0 is never true, so the counter that moves never wraps and
    the other stays 0; the k-th image placed has the indices [(k, 0)]
    (under ["rows"], [(0, k)]), and the run returns without an error. *)
Theorem limit_zero_never_wraps (ps : Engine) (cfg : Config)
    (user : list Reply) (folder : Folder) :
  LIMIT cfg = 0 ->
  let j := journal (createSprite ps cfg user (Some folder)) in
  outcome (createSprite ps cfg user (Some folder)) = Returned tt
  /\ (forall n, Js.is_zero (Js.rem n (LIMIT cfg)) = false)
  /\ map placed_image (placements j) = accepted folder
  /\ map placed_cell (placements j)
     = map (fun k =>
              if String.eqb (LAYOUT cfg) "rows"
              then (0, Z.of_nat k) else (Z.of_nat k, 0))
         (seq 0 (List.length (accepted folder))).
Proof.
  intros Hlimit j.
  subst j.
  unfold outcome, journal.
  split; [apply createSprite_returns|].
  split; [intros n; now rewrite Hlimit|].
  rewrite createSprite_some, run_placements, plan_images.
  split; [reflexivity|].
  pose proof (plan_cells cfg (accepted folder) 0) as Hcells.
  cbn [Z.of_nat] in Hcells.
  rewrite Hcells.
  apply map_ext.
  intros k.
  unfold cell, primary, secondary.
  now rewrite Hlimit.
Qed.

Lemma limit_zero_never_wraps_witness :
  let cfg := with_LIMIT 0 default_config in
  LIMIT cfg = 0
  /\ outcome (createSprite photoshop cfg [] (Some icons_folder)) = Returned tt
  /\ map placed_cell
       (placements
          (journal (createSprite photoshop cfg [] (Some icons_folder))))
     = [(0, 0); (1, 0)].
Proof.
  intros cfg.
  split; [reflexivity|].
  destruct (limit_zero_never_wraps photoshop cfg [] icons_folder eq_refl)
    as [Hout [_ [_ Hcells]]].
  split; [exact Hout | exact Hcells].
Defined.

(** * Further properties of the script *)

(** ** Names *)

Section Names.

Lemma toLowerCase_app (a b : string) :
  Js.toLowerCase (a ++ b) = Js.toLowerCase a ++ Js.toLowerCase b.
Proof.
  induction a as [|c a IH]; simpl; [reflexivity|].
  now rewrite IH.
Qed.

Lemma contains_inside (s t before after : string) :
  contains s t -> contains (before ++ s ++ after) t.
Proof.
  intros [b [a ->]].
  exists (before ++ b), (a ++ after).
  now rewrite !append_assoc.
Qed.

Lemma lower_char_dot (c : ascii) :
  Js.lower_char c = "."%char -> c = "."%char.
Proof.
  destruct c as [[] [] [] [] [] [] [] []]; cbv; intros H;
    first [reflexivity | discriminate H].
Qed.

Lemma toLowerCase_dot (s : string) :
  contains (Js.toLowerCase s) "." -> contains s ".".
Proof.
  intros [before [after H]].
  revert s H.
  induction before as [|c before IH]; intros [|d s] H; try discriminate H.
  - simpl in H.
    injection H as Hd Hs.
    apply lower_char_dot in Hd.
    subst d.
    now exists "", s.
  - simpl in H.
    injection H as Hd Hs.
    destruct (IH s Hs) as [b [a ->]].
    now exists (String d b), a.
Qed.

Lemma dotted_contains_dot (s t : string) :
  In t supported_types -> contains s t -> contains s ".".
Proof.
  intros Hin [before [after ->]].
  simpl in Hin.
  destruct Hin as [<-|[<-|[<-|[<-|[<-|[]]]]]];
    eexists before, _; simpl; reflexivity.
Qed.

(** Without a dot further on, [lastIndexOf] keeps what it found. *)
Lemma lastIndexOf_from_no_dot (s : string) :
  forall from found,
  0 <= from ->
  Js.indexOf_from from s "." = -1 ->
  Js.lastIndexOf_from from found s "." = found.
Proof.
  induction s as [|c s IH]; intros from found Hfrom Hnone.
  - reflexivity.
  - cbn [Js.indexOf_from Js.lastIndexOf_from] in *.
    destruct (String.prefix "." (String c s)); [lia|].
    apply IH; [lia | assumption].
Qed.

Lemma lastIndexOf_from_last_dot (stem ext : string) :
  forall from found,
  0 <= from ->
  Js.indexOf ext "." = -1 ->
  Js.lastIndexOf_from from found (stem ++ "." ++ ext) "."
  = from + Z.of_nat (String.length stem).
Proof.
  induction stem as [|c stem IH]; intros from found Hfrom Hext.
  - cbn [String.append Js.lastIndexOf_from String.length Z.of_nat].
    assert (String.prefix "." (String "." ext) = true) as ->
      by (apply prefix_spec; now exists ext).
    rewrite Z.add_0_r.
    apply lastIndexOf_from_no_dot; [lia|].
    unfold Js.indexOf in Hext.
    destruct (indexOf_from_range (from + 1) ext ".") as [H|H]; [exact H|].
    exfalso.
    assert (contains ext ".") as Hc by (apply (indexOf_from_found (from + 1)); lia).
    apply (indexOf_from_found 0) in Hc; [contradiction | lia].
  - cbn [String.append Js.lastIndexOf_from String.length].
    rewrite IH by (assumption || lia).
    lia.
Qed.

Lemma substring_prefix (a b : string) :
  String.substring 0 (String.length a) (a ++ b) = a.
Proof.
  induction a as [|c a IH]; simpl.
  - now destruct b.
  - now rewrite IH.
Qed.

End Names.

(** X1.  [addLayer] puts the new layer in front of the layers the
    document has, which it leaves as they are, and the corner of the
    new layer is at the coordinates, wherever the content sat in the
    image that was opened: the first [translate] takes the corner to
    the origin, the second to the coordinates. *)
Theorem addLayer_lands_at_coordinates (f : File) (dest : Document)
    (c : Coordinates) :
  exists l,
    addLayer (AFile f) (Some dest) c
    = (Returned {| doc_name := doc_name dest; layers := l :: layers dest |},
       [])
    /\ bounds0 l = x c
    /\ bounds1 l = y c.
Proof.
  rewrite addLayer_file.
  eexists.
  split; [reflexivity|].
  now split.
Qed.

(** X2.  The layer is named after the file without its last extension:
    for a file named [stem.ext], [ext] without a dot, the name of the
    new layer is [stem], dots of [stem] included. *)
Theorem addLayer_strips_last_extension (f : File) (dest : Document)
    (c : Coordinates) (stem ext : string) :
  file_name f = stem ++ "." ++ ext ->
  Js.indexOf ext "." = -1 ->
  exists l,
    addLayer (AFile f) (Some dest) c
    = (Returned {| doc_name := doc_name dest; layers := l :: layers dest |},
       [])
    /\ layer_name l = stem.
Proof.
  intros Hname Hext.
  rewrite addLayer_file.
  eexists.
  split; [reflexivity|].
  cbn [layer_name].
  unfold Js.lastIndexOf, Js.substring0.
  rewrite Hname, lastIndexOf_from_last_dot by (assumption || lia).
  rewrite Z.add_0_l, Nat2Z.id.
  apply substring_prefix.
Qed.

Lemma addLayer_strips_last_extension_witness :
  let f := {| file_name := "a.b.jpeg"; image_left := 3; image_top := 7 |} in
  let dest := {| doc_name := "sprite"; layers := [empty_layer] |} in
  file_name f = "a.b" ++ "." ++ "jpeg"
  /\ Js.indexOf "jpeg" "." = -1
  /\ exists l,
       addLayer (AFile f) (Some dest) {| x := 100; y := 50 |}
       = (Returned {| doc_name := "sprite"; layers := l :: layers dest |}, [])
       /\ layer_name l = "a.b".
Proof.
  intros f dest.
  split; [reflexivity|].
  split; [reflexivity|].
  apply (addLayer_strips_last_extension f dest {| x := 100; y := 50 |}
           "a.b" "jpeg"); reflexivity.
Defined.

(** X3.  A file whose name has no dot is never accepted, whatever its
    letters: each of the supported types begins with a dot. *)
Theorem name_without_dot_rejected (f : File) :
  Js.indexOf (file_name f) "." = -1 ->
  valid_image (AFile f) = false.
Proof.
  intros Hnone.
  destruct (valid_image (AFile f)) eqn:Hvalid; [|reflexivity].
  exfalso.
  unfold valid_image, isValidFile in Hvalid.
  apply isValidFile_loop_spec in Hvalid.
  destruct Hvalid as [t [Hin Hcontains]].
  apply dotted_contains_dot in Hcontains; [|exact Hin].
  apply toLowerCase_dot in Hcontains.
  apply (indexOf_from_found 0) in Hcontains; [|lia].
  now apply Hcontains.
Qed.

Lemma name_without_dot_rejected_witness :
  let f := {| file_name := "PNG-JPG-GIF"; image_left := 0; image_top := 0 |} in
  Js.indexOf (file_name f) "." = -1 /\ valid_image (AFile f) = false.
Proof.
  intros f.
  split; [reflexivity|].
  now apply (name_without_dot_rejected f).
Defined.

(** X4.  The filter looks for the type anywhere in the name, so text
    added before or after the name of an accepted file leaves it
    accepted: backups such as [icon.png.bak] and names such as
    [notes.jpgx] pass. *)
Theorem filter_closed_under_extension (f g : File) (before after : string) :
  valid_image (AFile f) = true ->
  file_name g = before ++ file_name f ++ after ->
  valid_image (AFile g) = true.
Proof.
  unfold valid_image, isValidFile.
  rewrite !isValidFile_loop_spec.
  intros [t [Hin Hcontains]] ->.
  exists t.
  split; [exact Hin|].
  rewrite !toLowerCase_app.
  now apply contains_inside.
Qed.

Lemma filter_closed_under_extension_witness :
  let f := {| file_name := "icon.PNG"; image_left := 0; image_top := 0 |} in
  let g :=
    {| file_name := "old-icon.PNG.bak"; image_left := 0; image_top := 0 |} in
  valid_image (AFile f) = true
  /\ file_name g = "old-" ++ file_name f ++ ".bak"
  /\ valid_image (AFile g) = true.
Proof.
  intros f g.
  split; [reflexivity|].
  split; [reflexivity|].
  now apply (filter_closed_under_extension f g "old-" ".bak").
Defined.

(** ** The documents *)

Section Documents.

Variable ps : Engine.

Lemma removelast_map {A B : Type} (g : A -> B) (l : list A) :
  removelast (map g l) = map g (removelast l).
Proof.
  induction l as [|a l IH]; [reflexivity|].
  destruct l as [|b l]; [reflexivity|].
  cbn [map removelast] in *.
  now rewrite IH.
Qed.

Lemma filter_all {A : Type} (g : A -> bool) (l : list A) :
  forallb g l = true -> filter g l = l.
Proof.
  induction l as [|a l IH]; [reflexivity|].
  cbn [forallb filter].
  intros H.
  apply andb_prop in H.
  destruct H as [Ha Hl].
  now rewrite Ha, IH.
Qed.

(** The number of writes of the loop: a line for each layer and, in
    json mode, a comma after each but the last. *)
Lemma export_loop_count (format name : string) (ls : list Layer) :
  forall extra : list Layer,
  List.length
    (snd (outputCoordinates_loop ps format
            {| doc_name := name; layers := (ls ++ extra)%list |}
            (List.length ls)))
  = if String.eqb format "json"
    then (List.length ls + Nat.pred (List.length ls))%nat
    else List.length ls.
Proof.
  induction ls as [|l ls IH] using rev_ind; intros extra.
  - cbn.
    now destruct (String.eqb format "json").
  - rewrite length_app, Nat.add_1_r.
    cbn [outputCoordinates_loop layers].
    rewrite <- app_assoc.
    rewrite nth_error_app2, Nat.sub_diag by lia.
    cbn [nth_error app].
    specialize (IH (l :: extra)).
    destruct (String.eqb format "json").
    + destruct (Z.ltb_spec 0 (Z.of_nat (List.length ls))) as [Hpos|Hzero];
        script_steps; cbn [List.length]; rewrite IH; lia.
    + script_steps.
      cbn [List.length].
      now rewrite IH.
Qed.

End Documents.

(** X5.  On a document that has a layer, [cleanUp] takes away the
    layer of the last index, the empty layer a new canvas comes with,
    and keeps the other layers with their names, in their order. *)
Theorem cleanUp_removes_last_layer (ps : Engine) (document : Document) :
  layers document <> [] ->
  exists trimmed,
    cleanUp ps document = (Returned trimmed, [CleanUp])
    /\ doc_name trimmed = doc_name document
    /\ map layer_name (layers trimmed)
       = removelast (map layer_name (layers document))
    /\ S (List.length (layers trimmed)) = List.length (layers document).
Proof.
  destruct document as [name ls].
  cbn [layers].
  intros Hsome.
  destruct ls as [|l ls] using rev_ind; [congruence|].
  clear IHls.
  rewrite cleanUp_spec.
  eexists.
  split; [reflexivity|].
  cbn [doc_name layers].
  split; [reflexivity|].
  split.
  - rewrite map_app.
    cbn [map].
    rewrite removelast_last, map_map.
    reflexivity.
  - rewrite length_map, length_app.
    cbn [List.length].
    lia.
Qed.

Lemma cleanUp_removes_last_layer_witness :
  let a := {| layer_name := "a"; bounds0 := 0; bounds1 := 0 |} in
  let b := {| layer_name := "b"; bounds0 := 0; bounds1 := 50 |} in
  let document :=
    {| doc_name := "sprite"; layers := [b; a; empty_layer] |} in
  layers document <> []
  /\ exists trimmed,
       cleanUp photoshop document = (Returned trimmed, [CleanUp])
       /\ doc_name trimmed = "sprite"
       /\ map layer_name (layers trimmed) = ["b"; "a"]
       /\ S (List.length (layers trimmed)) = 3%nat.
Proof.
  intros a b document.
  split; [discriminate|].
  apply (cleanUp_removes_last_layer photoshop document).
  discriminate.
Defined.

(** X6.  [outputCoordinates] never reads a layer that is not there: it
    returns on every document.  In css mode it makes one write for
    each layer; in json mode, for [n] layers, [n] lines, the commas
    between them and the two bracket lines, which are written even
    when the document has no layer. *)
Theorem outputCoordinates_write_count (ps : Engine) (cfg : Config)
    (doc : Document) :
  outcome (outputCoordinates ps cfg doc) = Returned tt
  /\ writes (journal (outputCoordinates ps cfg doc))
     = if String.eqb (Js.toLowerCase (OUTPUT_FORMAT cfg)) "json"
       then (2 + List.length (layers doc)
             + Nat.pred (List.length (layers doc)))%nat
       else List.length (layers doc).
Proof.
  destruct (outputCoordinates_spec ps cfg doc) as [Hout _].
  split; [exact Hout|].
  destruct doc as [name ls].
  pose proof (export_loop ps (Js.toLowerCase (OUTPUT_FORMAT cfg)) name ls [])
    as [Hloop [Hwrites _]].
  pose proof (export_loop_count ps (Js.toLowerCase (OUTPUT_FORMAT cfg))
                name ls []) as Hcount.
  rewrite app_nil_r in *.
  unfold journal, writes, outputCoordinates.
  cbn [layers].
  rewrite (bind_after _ tt _ Hloop).
  destruct (String.eqb (Js.toLowerCase (OUTPUT_FORMAT cfg)) "json");
    script_steps; cbn [filter is_write];
    rewrite filter_app, (filter_all _ _ Hwrites);
    cbn [filter is_write List.length];
    rewrite length_app, Hcount;
    cbn [List.length]; lia.
Qed.

(** ** The grid, for any [LIMIT] *)

Section Cells.

Variable cfg : Config.

Lemma counters_injective (limit a b : Z) :
  0 <= a -> 0 <= b ->
  primary limit a = primary limit b ->
  secondary limit a = secondary limit b ->
  a = b.
Proof.
  unfold primary, secondary.
  intros Ha Hb Hp Hs.
  destruct (Z.eqb_spec limit 0) as [_|Hl]; [exact Hp|].
  rewrite (Z.div_mod a (Z.abs limit)), (Z.div_mod b (Z.abs limit)) by lia.
  now rewrite Hp, Hs.
Qed.

Lemma cell_injective (a b : Z) :
  0 <= a -> 0 <= b -> cell cfg a = cell cfg b -> a = b.
Proof.
  unfold cell.
  intros Ha Hb H.
  destruct (String.eqb (LAYOUT cfg) "rows"); injection H as H1 H2;
    now apply (counters_injective (LIMIT cfg)).
Qed.

Lemma counters_bounds (limit k : Z) :
  0 <= k ->
  0 <= primary limit k
  /\ 0 <= secondary limit k
  /\ (limit <> 0 -> primary limit k < Z.abs limit).
Proof.
  unfold primary, secondary.
  intros Hk.
  destruct (Z.eqb_spec limit 0) as [Hl|Hl].
  - repeat split; lia.
  - pose proof (Z.mod_pos_bound k (Z.abs limit) ltac:(lia)).
    pose proof (Z.div_pos k (Z.abs limit) Hk ltac:(lia)).
    repeat split; lia.
Qed.

Lemma plan_cells_NoDup (images : list Entry) :
  NoDup (map placed_cell (plan_from cfg 0 images)).
Proof.
  pose proof (plan_cells cfg images 0) as Hcells.
  cbn [Z.of_nat] in Hcells.
  rewrite Hcells.
  apply NoDup_map_NoDup_ForallPairs; [|apply seq_NoDup].
  intros i j _ _ Hij.
  apply cell_injective in Hij; lia.
Qed.

Lemma plan_at (images : list Entry) :
  forall k,
  map placed_at (plan_from cfg k images)
  = map (fun c => {| x := COL_SPACING cfg * fst c;
                     y := ROW_SPACING cfg * snd c |})
      (map placed_cell (plan_from cfg k images)).
Proof.
  induction images as [|e images IH]; intros k; cbn [plan_from map];
    [reflexivity|].
  now rewrite IH.
Qed.

Lemma plan_cell_of (images : list Entry) (p : Placement) :
  In p (plan_from cfg 0 images) ->
  exists k, 0 <= k /\ placed_cell p = cell cfg k.
Proof.
  intros Hin.
  apply (in_map placed_cell) in Hin.
  pose proof (plan_cells cfg images 0) as Hcells.
  cbn [Z.of_nat] in Hcells.
  rewrite Hcells in Hin.
  apply in_map_iff in Hin.
  destruct Hin as [i [Hi _]].
  exists (Z.of_nat i).
  split; [lia | now symmetry].
Qed.

Lemma cell_abs (l : Z) (k : Z) :
  Z.abs l = Z.abs (LIMIT cfg) ->
  cell (with_LIMIT l cfg) k = cell cfg k.
Proof.
  intros Habs.
  unfold cell, primary, secondary.
  cbn [LAYOUT LIMIT with_LIMIT].
  rewrite Habs.
  destruct (Z.eqb_spec l 0), (Z.eqb_spec (LIMIT cfg) 0); try lia;
    reflexivity.
Qed.

Lemma plan_abs (l : Z) (images : list Entry) :
  Z.abs l = Z.abs (LIMIT cfg) ->
  forall k, plan_from (with_LIMIT l cfg) k images = plan_from cfg k images.
Proof.
  intros Habs.
  induction images as [|e images IH]; intros k; cbn [plan_from];
    [reflexivity|].
  rewrite IH.
  unfold place.
  now rewrite cell_abs.
Qed.

Lemma folder_abs (ps : Engine) (l : Z) (folder : Folder) :
  Z.abs l = Z.abs (LIMIT cfg) ->
  createSprite_folder ps (with_LIMIT l cfg) folder
  = createSprite_folder ps cfg folder.
Proof.
  intros Habs.
  rewrite !folder_run.
  unfold sprite_layers.
  now rewrite !plan_abs.
Qed.

End Cells.

(** X7.  No two images of a run share a cell of the grid, whatever
    [LIMIT] and [LAYOUT]: the pairs [(col_index, row_index)] of the
    calls of [addLayer] are all different. *)
Theorem cells_are_distinct (ps : Engine) (cfg : Config) (user : list Reply)
    (folder : Folder) :
  NoDup
    (map placed_cell
       (placements (journal (createSprite ps cfg user (Some folder))))).
Proof.
  unfold journal.
  rewrite createSprite_some, run_placements.
  apply plan_cells_NoDup.
Qed.

Lemma counters_below (limit k : Z) :
  0 <= k ->
  primary limit k <= k /\ secondary limit k <= k.
Proof.
  unfold primary, secondary.
  intros Hk.
  destruct (Z.eqb_spec limit 0) as [Hl|Hl]; [lia|].
  split.
  - apply Z.mod_le; lia.
  - apply Z.div_le_upper_bound; nia.
Qed.

Lemma plan_cell_below (cfg : Config) (images : list Entry) (p : Placement) :
  In p (plan_from cfg 0 images) ->
  exists k,
    0 <= k < Z.of_nat (List.length images) /\ placed_cell p = cell cfg k.
Proof.
  intros Hin.
  apply (in_map placed_cell) in Hin.
  pose proof (plan_cells cfg images 0) as Hcells.
  cbn [Z.of_nat] in Hcells.
  rewrite Hcells in Hin.
  apply in_map_iff in Hin.
  destruct Hin as [i [Hi Hseq]].
  apply in_seq in Hseq.
  exists (Z.of_nat i).
  split; [lia | now symmetry].
Qed.

(** X8.  When neither spacing is 0 and the spacings times the number
    of accepted images stay within [MAX_SAFE_INTEGER], every
    coordinate of a run stays within [MAX_SAFE_INTEGER], where the
    products of the script are exact, and no two images are placed at
    the same coordinates. *)
Theorem coordinates_are_distinct (ps : Engine) (cfg : Config)
    (user : list Reply) (folder : Folder) :
  COL_SPACING cfg <> 0 ->
  ROW_SPACING cfg <> 0 ->
  Z.abs (COL_SPACING cfg) * Z.of_nat (List.length (accepted folder))
  <= MAX_SAFE_INTEGER ->
  Z.abs (ROW_SPACING cfg) * Z.of_nat (List.length (accepted folder))
  <= MAX_SAFE_INTEGER ->
  let placed :=
    placements (journal (createSprite ps cfg user (Some folder))) in
  NoDup (map placed_at placed)
  /\ (forall p,
        In p placed ->
        Z.abs (x (placed_at p)) <= MAX_SAFE_INTEGER
        /\ Z.abs (y (placed_at p)) <= MAX_SAFE_INTEGER).
Proof.
  intros Hcol Hrow Hx Hy placed.
  subst placed.
  unfold journal.
  rewrite createSprite_some, run_placements.
  split.
  - rewrite plan_at.
    apply NoDup_map_NoDup_ForallPairs; [|apply plan_cells_NoDup].
    intros [c r] [c' r'] _ _ H.
    cbn [fst snd] in H.
    injection H as Hc Hr.
    apply Z.mul_reg_l in Hc; [|exact Hcol].
    apply Z.mul_reg_l in Hr; [|exact Hrow].
    now subst.
  - intros p Hin.
    rewrite (plan_coordinates cfg _ 0 p Hin).
    cbn [x y].
    destruct (plan_cell_below cfg _ p Hin) as [k [Hk Hcell]].
    destruct (counters_bounds (LIMIT cfg) k ltac:(lia)) as [Hp [Hs _]].
    destruct (counters_below (LIMIT cfg) k ltac:(lia)) as [Hpk Hsk].
    unfold placed_cell, cell in Hcell.
    rewrite !Z.abs_mul.
    destruct (String.eqb (LAYOUT cfg) "rows"); injection Hcell as -> ->;
      split; nia.
Qed.

Lemma coordinates_are_distinct_witness :
  COL_SPACING default_config <> 0
  /\ ROW_SPACING default_config <> 0
  /\ Z.abs (COL_SPACING default_config)
     * Z.of_nat (List.length (accepted icons_folder)) <= MAX_SAFE_INTEGER
  /\ Z.abs (ROW_SPACING default_config)
     * Z.of_nat (List.length (accepted icons_folder)) <= MAX_SAFE_INTEGER
  /\ NoDup
       (map placed_at
          (placements
             (journal (createSprite photoshop default_config []
                         (Some icons_folder))))).
Proof.
  split; [discriminate|].
  split; [discriminate|].
  split; [vm_compute; discriminate|].
  split; [vm_compute; discriminate|].
  apply (coordinates_are_distinct photoshop default_config [] icons_folder);
    vm_compute; discriminate.
Defined.

(** X9.  The indices are never negative, whatever [LIMIT], and when
    [LIMIT] is not 0 the index that wraps stays below the absolute
    value of [LIMIT]: the row index under ["rows"], the column index
    otherwise. *)
Theorem grid_stays_within_limit (ps : Engine) (cfg : Config)
    (user : list Reply) (folder : Folder) (p : Placement) :
  In p (placements (journal (createSprite ps cfg user (Some folder)))) ->
  0 <= placed_col p
  /\ 0 <= placed_row p
  /\ (LIMIT cfg <> 0 ->
      if String.eqb (LAYOUT cfg) "rows"
      then placed_row p < Z.abs (LIMIT cfg)
      else placed_col p < Z.abs (LIMIT cfg)).
Proof.
  unfold journal.
  rewrite createSprite_some, run_placements.
  intros Hin.
  destruct (plan_cell_of cfg _ p Hin) as [k [Hk Hcell]].
  destruct (counters_bounds (LIMIT cfg) k Hk) as [Hp [Hs Hlt]].
  unfold placed_cell, cell in Hcell.
  destruct (String.eqb (LAYOUT cfg) "rows"); injection Hcell as -> ->;
    repeat split; assumption.
Qed.

Lemma grid_stays_within_limit_witness :
  let folder :=
    {| getFiles := [file "a.png"; file "b.png"; file "c.png"] |} in
  let p :=
    {| placed_image := file "c.png"; placed_col := 0; placed_row := 1;
       placed_at := {| x := 0; y := 50 |} |} in
  let q :=
    {| placed_image := file "c.png"; placed_col := 2; placed_row := 0;
       placed_at := {| x := 200; y := 0 |} |} in
  In p (placements
          (journal (createSprite photoshop (with_LIMIT (-2) default_config)
                      [] (Some folder))))
  /\ In q (placements
             (journal (createSprite photoshop (with_LIMIT 0 default_config)
                         [] (Some folder))))
  /\ (0 <= placed_col p /\ 0 <= placed_row p /\ placed_col p < 2)
  /\ (0 <= placed_col q /\ 0 <= placed_row q).
Proof.
  intros folder p q.
  assert (In p (placements
                  (journal (createSprite photoshop
                              (with_LIMIT (-2) default_config)
                              [] (Some folder)))))
    as Hp by (vm_compute; tauto).
  assert (In q (placements
                  (journal (createSprite photoshop
                              (with_LIMIT 0 default_config)
                              [] (Some folder)))))
    as Hq by (vm_compute; tauto).
  split; [exact Hp|].
  split; [exact Hq|].
  destruct (grid_stays_within_limit photoshop _ [] folder p Hp)
    as [Hc [Hr Hlt]].
  destruct (grid_stays_within_limit photoshop _ [] folder q Hq)
    as [Hc' [Hr' _]].
  split; [|now split].
  split; [exact Hc|].
  split; [exact Hr|].
  apply Hlt.
  discriminate.
Defined.

(** X10.  Only the absolute value of [LIMIT] matters: the remainder
    has the sign of the counter, which is never negative, so a run with
    [LIMIT = -n] makes the same calls as a run with [LIMIT = n]. *)
Theorem limit_sign_is_ignored (ps : Engine) (cfg : Config) (l : Z)
    (user : list Reply) (folder : Folder) :
  Z.abs l = Z.abs (LIMIT cfg) ->
  createSprite ps (with_LIMIT l cfg) user (Some folder)
  = createSprite ps cfg user (Some folder).
Proof.
  intros Habs.
  rewrite !createSprite_some.
  now apply folder_abs.
Qed.

Lemma limit_sign_is_ignored_witness :
  let cfg := with_LIMIT 2 default_config in
  Z.abs (-2) = Z.abs (LIMIT cfg)
  /\ createSprite photoshop (with_LIMIT (-2) cfg) [] (Some icons_folder)
     = createSprite photoshop cfg [] (Some icons_folder).
Proof.
  intros cfg.
  split; [reflexivity|].
  now apply (limit_sign_is_ignored photoshop cfg (-2) [] icons_folder).
Defined.

(** ** The order of a run *)

Lemma filter_idempotent {A : Type} (g : A -> bool) (l : list A) :
  filter g (filter g l) = filter g l.
Proof.
  induction l as [|a l IH]; [reflexivity|].
  cbn [filter].
  destruct (g a) eqn:Ha; [|exact IH].
  cbn [filter].
  now rewrite Ha, IH.
Qed.

Lemma plan_length (cfg : Config) (images : list Entry) :
  forall k, List.length (plan_from cfg k images) = List.length images.
Proof.
  induction images as [|e images IH]; intros k; cbn [plan_from List.length];
    [reflexivity|].
  now rewrite IH.
Qed.

(** X12.  A run depends on the accepted entries of the folder alone:
    sub-folders and files of other types, wherever they stand in the
    listing, change no call and no coordinate. *)
Theorem run_ignores_rejected_entries (ps : Engine) (cfg : Config)
    (user : list Reply) (folder : Folder) :
  createSprite ps cfg user (Some folder)
  = createSprite ps cfg user (Some {| getFiles := accepted folder |}).
Proof.
  assert (accepted {| getFiles := accepted folder |} = accepted folder)
    as Hsame by apply filter_idempotent.
  rewrite !createSprite_some, !folder_run.
  now rewrite !Hsame.
Qed.

(** ** The prompts *)

Section Prompts.

Variable ps : Engine.
Variable cfg : Config.

Lemma cancelled_rounds (n : nat) (later : list Reply) :
  createSprite ps cfg (repeat (TryAgain None) n ++ later) None
  = (fst (createSprite ps cfg later None),
     (List.concat (repeat asked_again n)
      ++ snd (createSprite ps cfg later None))%list).
Proof.
  induction n as [|n IH].
  - cbn [repeat List.concat app].
    now destruct (createSprite ps cfg later None).
  - cbn [repeat app List.concat createSprite].
    script_steps.
    now rewrite IH.
Qed.

End Prompts.

(** X13.  Each time the folder dialog is cancelled the user is asked
    whether to try again; after [n] cancelled rounds, accepting and
    then picking a folder runs the script on that folder, and replies
    left over are never asked for. *)
Theorem retry_until_folder (ps : Engine) (cfg : Config) (n : nat)
    (folder : Folder) (later : list Reply) :
  createSprite ps cfg
    (repeat (TryAgain None) n ++ TryAgain (Some folder) :: later) None
  = (outcome (createSprite_folder ps cfg folder),
     (List.concat (repeat asked_again (S n))
      ++ journal (createSprite_folder ps cfg folder))%list).
Proof.
  rewrite cancelled_rounds.
  cbn [createSprite].
  script_steps.
  rewrite createSprite_some.
  unfold outcome, journal.
  f_equal.
  replace (S n) with (n + 1)%nat by lia.
  rewrite repeat_app, concat_app.
  cbn [repeat List.concat app].
  now rewrite <- !app_assoc.
Qed.

(** X14.  When the folder dialog is cancelled and the user, after [n]
    more cancelled rounds, declines to try again (or is no longer
    there to answer), the run ends there: it returns, and it has made
    no call but the prompts; no canvas, no layer, no output. *)
Theorem declining_ends_the_run (ps : Engine) (cfg : Config) (n : nat)
    (later : list Reply) :
  createSprite ps cfg (repeat (TryAgain None) n ++ Decline :: later) None
  = (Returned tt,
     (List.concat (repeat asked_again n) ++ [Confirm try_again_message])%list)
  /\ createSprite ps cfg (repeat (TryAgain None) n) None
     = (Returned tt,
        (List.concat (repeat asked_again n) ++ [Confirm try_again_message])%list).
Proof.
  split.
  - now rewrite cancelled_rounds.
  - rewrite <- (app_nil_r (repeat (TryAgain None) n)) at 1.
    now rewrite cancelled_rounds.
Qed.

(** ** Texts *)

Lemma last_dot_decomposition (s : string) :
  contains s "." ->
  exists stem ext, s = stem ++ "." ++ ext /\ Js.indexOf ext "." = -1.
Proof.
  induction s as [|c s IH]; intros [before [after H]].
  - now destruct before.
  - destruct (Z.eq_dec (Js.indexOf s ".") (-1)) as [Hnone|Hsome].
    + destruct before as [|d before].
      * injection H as -> ->.
        now exists "", after.
      * exfalso.
        injection H as _ ->.
        assert (contains (before ++ "." ++ after) ".") as Hc
          by now exists before, after.
        apply (indexOf_from_found 0) in Hc; [|lia].
        now apply Hc.
    + apply (indexOf_from_found 0) in Hsome; [|lia].
      destruct (IH Hsome) as [stem [ext [-> Hext]]].
      now exists (String c stem), ext.
Qed.

Lemma split_join_spaces_no_space (s before after : string) :
  Js.split_join_spaces s <> before ++ " " ++ after.
Proof.
  revert before.
  induction s as [|c s IH]; intros before; cbn [Js.split_join_spaces].
  - now destruct before.
  - destruct (Ascii.eqb_spec c " "%char) as [->|Hc]; [apply IH|].
    destruct before as [|d before]; intros H; injection H as Hd Hrest.
    + contradiction.
    + now apply (IH before).
Qed.

(** X15.  For every file the filter accepts, the name of its layer is
    the file name cut at its last dot: the file name is the layer name,
    a dot, and an extension without a dot.  An accepted file never
    gets the whole of its name as layer name. *)
Theorem accepted_layer_name_roundtrip (f : File) (dest : Document)
    (c : Coordinates) :
  valid_image (AFile f) = true ->
  exists l ext,
    addLayer (AFile f) (Some dest) c
    = (Returned {| doc_name := doc_name dest; layers := l :: layers dest |},
       [])
    /\ file_name f = layer_name l ++ "." ++ ext
    /\ Js.indexOf ext "." = -1.
Proof.
  intros Hvalid.
  assert (contains (file_name f) ".") as Hdot.
  { unfold valid_image, isValidFile in Hvalid.
    apply isValidFile_loop_spec in Hvalid.
    destruct Hvalid as [t [Hin Hcontains]].
    apply toLowerCase_dot.
    now apply (dotted_contains_dot _ t). }
  destruct (last_dot_decomposition _ Hdot) as [stem [ext [Hname Hext]]].
  rewrite addLayer_file.
  eexists _, ext.
  split; [reflexivity|].
  split; [|exact Hext].
  cbn [layer_name].
  assert (Js.substring0 (Js.lastIndexOf (file_name f) ".") (file_name f)
          = stem) as ->.
  { unfold Js.lastIndexOf, Js.substring0.
    rewrite Hname, lastIndexOf_from_last_dot by (assumption || lia).
    rewrite Z.add_0_l, Nat2Z.id.
    apply substring_prefix. }
  exact Hname.
Qed.

Lemma accepted_layer_name_roundtrip_witness :
  let f := {| file_name := "My.Icon.PNG"; image_left := 2; image_top := 5 |} in
  let dest := {| doc_name := "sprite"; layers := [empty_layer] |} in
  valid_image (AFile f) = true
  /\ exists l ext,
       addLayer (AFile f) (Some dest) {| x := 0; y := 0 |}
       = (Returned {| doc_name := "sprite"; layers := l :: layers dest |}, [])
       /\ file_name f = layer_name l ++ "." ++ ext
       /\ Js.indexOf ext "." = -1.
Proof.
  intros f dest.
  split; [reflexivity|].
  now apply (accepted_layer_name_roundtrip f dest {| x := 0; y := 0 |}).
Defined.

(** X16.  The texts of x and y that the exporter writes hold no space,
    however the host prints a bound: [split(' ').join('')] takes every
    space out. *)
Theorem bound_text_has_no_space (ps : Engine) (b : Z) :
  Js.indexOf (bound_text ps b) " " = -1.
Proof.
  destruct (Z.eq_dec (Js.indexOf (bound_text ps b) " ") (-1)) as [H|H];
    [exact H|].
  exfalso.
  apply (indexOf_from_found 0) in H; [|lia].
  destruct H as [before [after H]].
  now apply (split_join_spaces_no_space (toString ps b) before after).
Qed.

(** ** When a file does not open *)

Section Opening.

Variable opens : File -> bool.
Variable cfg : Config.

Lemma fallible_body_invalid (e : Entry) (st : Locals) :
  valid_image e = false ->
  Fallible.createSprite_body opens cfg e st = ret st.
Proof.
  intros H.
  unfold Fallible.createSprite_body.
  now rewrite H.
Qed.

(** On a file that opens, the body is the body above. *)
Lemma fallible_body_opens (e : Entry) (st : Locals) :
  entry_opens opens e = true ->
  Fallible.createSprite_body opens cfg e st = createSprite_body cfg e st.
Proof.
  intros Hopens.
  unfold Fallible.createSprite_body, createSprite_body.
  destruct (valid_image e); [|reflexivity].
  destruct e as [f|n]; [|discriminate].
  cbn [entry_opens] in Hopens.
  destruct st as [canvas doc c r].
  destruct canvas;
    cbn [bind call ret createCanvas fst snd app negb new_canvas new_doc
         col_index row_index];
    unfold Fallible.addLayer; rewrite Hopens; reflexivity.
Qed.

(** On a file that does not open, the body throws at [open]; the
    canvas, when this is the first image, is there already. *)
Lemma fallible_body_fails (f : File) (d : Document) (k : Z) :
  valid_image (AFile f) = true ->
  opens f = false ->
  Fallible.createSprite_body opens cfg (AFile f)
    {| new_canvas := true; new_doc := Some d;
       col_index := fst (cell cfg k); row_index := snd (cell cfg k) |}
  = (Threw open_error, [add_layer_event (place cfg k (AFile f))]).
Proof.
  intros Hvalid Hopens.
  unfold Fallible.createSprite_body.
  rewrite Hvalid.
  cbn [bind call ret fst snd app negb new_canvas new_doc col_index row_index].
  unfold Fallible.addLayer.
  rewrite Hopens.
  reflexivity.
Qed.

Lemma fallible_body_fails_first (f : File) :
  valid_image (AFile f) = true ->
  opens f = false ->
  Fallible.createSprite_body opens cfg (AFile f) start
  = (Threw open_error,
     [DocumentsAdd 10000 10000 72 "sprite" TRANSPARENT;
      add_layer_event (place cfg 0 (AFile f))]).
Proof.
  intros Hvalid Hopens.
  unfold Fallible.createSprite_body.
  rewrite Hvalid.
  unfold start, createCanvas.
  cbn [bind call ret fst snd app negb new_canvas new_doc col_index row_index].
  unfold Fallible.addLayer.
  rewrite Hopens.
  unfold place, add_layer_event.
  rewrite cell_0.
  reflexivity.
Qed.

(** The loop once the canvas exists: the loop above when every
    accepted file opens, else it throws at the first that does not,
    after the call of [addLayer] for it. *)
Lemma fallible_loop_with_canvas (doc_list : list Entry) :
  forall (d : Document) (k : Z),
  0 <= k ->
  Fallible.createSprite_loop opens cfg doc_list
    {| new_canvas := true; new_doc := Some d;
       col_index := fst (cell cfg k); row_index := snd (cell cfg k) |}
  = if forallb (entry_opens opens) (filter valid_image doc_list)
    then createSprite_loop cfg doc_list
           {| new_canvas := true; new_doc := Some d;
              col_index := fst (cell cfg k); row_index := snd (cell cfg k) |}
    else (Threw open_error,
          map add_layer_event
            (plan_from cfg k (attempted opens (filter valid_image doc_list)))).
Proof.
  induction doc_list as [|e rest IH]; intros d k Hk.
  - reflexivity.
  - cbn [Fallible.createSprite_loop createSprite_loop filter].
    destruct (valid_image e) eqn:Hvalid.
    + cbn [forallb attempted].
      destruct (entry_opens opens e) eqn:Hopens.
      * rewrite fallible_body_opens by assumption.
        rewrite body_valid, !bind_returned by assumption.
        rewrite IH by lia.
        cbn [andb].
        destruct (forallb (entry_opens opens) (filter valid_image rest));
          reflexivity.
      * destruct e as [f|n]; [|discriminate].
        rewrite fallible_body_fails by assumption.
        reflexivity.
    + rewrite fallible_body_invalid, body_invalid, !bind_ret_l by assumption.
      now apply IH.
Qed.

Lemma fallible_loop_from_start (doc_list : list Entry) :
  Fallible.createSprite_loop opens cfg doc_list start
  = if forallb (entry_opens opens) (filter valid_image doc_list)
    then createSprite_loop cfg doc_list start
    else (Threw open_error,
          DocumentsAdd 10000 10000 72 "sprite" TRANSPARENT
          :: map add_layer_event
               (plan_from cfg 0
                  (attempted opens (filter valid_image doc_list)))).
Proof.
  induction doc_list as [|e rest IH].
  - reflexivity.
  - cbn [Fallible.createSprite_loop createSprite_loop filter].
    destruct (valid_image e) eqn:Hvalid.
    + cbn [forallb attempted].
      destruct (entry_opens opens e) eqn:Hopens.
      * rewrite fallible_body_opens by assumption.
        rewrite body_first, !bind_returned by assumption.
        rewrite (fallible_loop_with_canvas rest _ 1) by lia.
        cbn [andb].
        destruct (forallb (entry_opens opens) (filter valid_image rest));
          reflexivity.
      * destruct e as [f|n]; [|discriminate].
        rewrite fallible_body_fails_first by assumption.
        reflexivity.
    + rewrite fallible_body_invalid, body_invalid, !bind_ret_l by assumption.
      exact IH.
Qed.

(** A run on a folder: the run above when every accepted file opens;
    else the canvas, the calls of [addLayer] up to the file that does
    not open, and the error of [open]. *)
Lemma fallible_folder (ps : Engine) (folder : Folder) :
  Fallible.createSprite_folder opens ps cfg folder
  = if forallb (entry_opens opens) (accepted folder)
    then createSprite_folder ps cfg folder
    else (Threw open_error,
          DocumentsAdd 10000 10000 72 "sprite" TRANSPARENT
          :: map add_layer_event
               (plan_from cfg 0 (attempted opens (accepted folder)))).
Proof.
  unfold Fallible.createSprite_folder, createSprite_folder.
  cbn zeta.
  rewrite fallible_loop_from_start.
  fold (accepted folder).
  now destruct (forallb (entry_opens opens) (accepted folder)).
Qed.

Lemma fallible_createSprite_some (ps : Engine) (user : list Reply)
    (folder : Folder) :
  Fallible.createSprite opens ps cfg user (Some folder)
  = Fallible.createSprite_folder opens ps cfg folder.
Proof. now destruct user. Qed.

End Opening.

Section Aborting.

Variable opens : File -> bool.
Variable ps : Engine.

Lemma attempted_all (images : list Entry) :
  forallb (entry_opens opens) images = true ->
  attempted opens images = images.
Proof.
  induction images as [|e images IH]; [reflexivity|].
  cbn [forallb attempted].
  intros H.
  apply andb_prop in H.
  destruct H as [He Hrest].
  now rewrite He, IH.
Qed.

Lemma attempted_until (before after : list Entry) (e : Entry) :
  forallb (entry_opens opens) before = true ->
  entry_opens opens e = false ->
  attempted opens (before ++ e :: after) = (before ++ [e])%list
  /\ forallb (entry_opens opens) (before ++ e :: after) = false.
Proof.
  induction before as [|b before IH]; cbn [forallb attempted app].
  - intros _ He.
    now rewrite He.
  - intros H He.
    apply andb_prop in H.
    destruct H as [Hb Hrest].
    destruct (IH Hrest He) as [Hatt Hall].
    now rewrite Hb, Hatt, Hall.
Qed.

(** How a run on a folder ends, and the images [addLayer] was called
    for: neither depends on the configuration. *)
Lemma fallible_outcome (cfg : Config) (folder : Folder) :
  fst (Fallible.createSprite_folder opens ps cfg folder)
  = if forallb (entry_opens opens) (accepted folder)
    then Returned tt else Threw open_error.
Proof.
  rewrite fallible_folder.
  destruct (forallb (entry_opens opens) (accepted folder));
    [apply folder_returns | reflexivity].
Qed.

Lemma fallible_images (cfg : Config) (folder : Folder) :
  map placed_image
    (placements (snd (Fallible.createSprite_folder opens ps cfg folder)))
  = attempted opens (accepted folder).
Proof.
  rewrite fallible_folder.
  destruct (forallb (entry_opens opens) (accepted folder)) eqn:Hall.
  - rewrite run_placements, plan_images.
    now rewrite attempted_all.
  - cbn [snd placements].
    now rewrite placements_add_layer, plan_images.
Qed.

(** The first two calls of a run with an accepted image. *)
Lemma fallible_first_calls (cfg : Config) (folder : Folder)
    (first : Entry) (rest : list Entry) :
  accepted folder = first :: rest ->
  exists tail,
    snd (Fallible.createSprite_folder opens ps cfg folder)
    = DocumentsAdd 10000 10000 72 "sprite" TRANSPARENT
      :: AddLayer first 0 0 {| x := 0; y := 0 |} :: tail.
Proof.
  intros Haccepted.
  assert (add_layer_event (place cfg 0 first)
          = AddLayer first 0 0 {| x := 0; y := 0 |}) as Hfirst.
  { unfold add_layer_event, place.
    rewrite cell_0.
    cbn [fst snd placed_image placed_col placed_row placed_at].
    now rewrite !Z.mul_0_r. }
  rewrite fallible_folder.
  destruct (forallb (entry_opens opens) (accepted folder)).
  - rewrite folder_run, Haccepted.
    cbn [snd plan_from map app].
    rewrite Hfirst.
    now eexists.
  - rewrite Haccepted.
    cbn [attempted].
    destruct (entry_opens opens first);
      cbn [snd plan_from map]; rewrite Hfirst; now eexists.
Qed.

End Aborting.

(** C5, amended.  No configuration is rejected.  Whatever [LIMIT]
    (zero and negative included), [LAYOUT] and [OUTPUT_FORMAT], the
    script checks nothing before it starts on the images: with an
    accepted image in the folder, the first calls of the run are the
    creation of the canvas and [addLayer] for that image; the
    configuration changes neither how the run ends nor the images
    [addLayer] is called for; and the remainder by 0 is [NaN], which
    is not 0, and raises nothing. *)
Theorem no_configuration_is_rejected (opens : File -> bool) (ps : Engine)
    (cfg : Config) (user : list Reply) (folder : Folder) :
  match accepted folder with
  | [] =>
      Fallible.main opens ps cfg (Some folder) user
      = (Returned tt, [SelectDialog])
  | first :: _ =>
      exists tail,
        journal (Fallible.main opens ps cfg (Some folder) user)
        = SelectDialog
          :: DocumentsAdd 10000 10000 72 "sprite" TRANSPARENT
          :: AddLayer first 0 0 {| x := 0; y := 0 |}
          :: tail
  end
  /\ (forall cfg' : Config,
        outcome (Fallible.main opens ps cfg' (Some folder) user)
        = outcome (Fallible.main opens ps cfg (Some folder) user)
        /\ map placed_image
             (placements
                (journal (Fallible.main opens ps cfg' (Some folder) user)))
           = map placed_image
               (placements
                  (journal (Fallible.main opens ps cfg (Some folder) user))))
  /\ (forall n : Z, Js.is_zero (Js.rem n 0) = false).
Proof.
  assert (forall c : Config,
            Fallible.main opens ps c (Some folder) user
            = (fst (Fallible.createSprite_folder opens ps c folder),
               SelectDialog
               :: snd (Fallible.createSprite_folder opens ps c folder)))
    as Hmain.
  { intros c.
    unfold Fallible.main.
    script_steps.
    now rewrite fallible_createSprite_some. }
  split; [|split].
  - destruct (accepted folder) as [|first rest] eqn:Haccepted.
    + rewrite Hmain, fallible_folder, Haccepted, folder_run, Haccepted.
      reflexivity.
    + destruct (fallible_first_calls opens ps cfg folder first rest Haccepted)
        as [tail Htail].
      exists tail.
      unfold journal.
      now rewrite Hmain, Htail.
  - intros cfg'.
    unfold outcome, journal.
    rewrite !Hmain.
    cbn [fst snd placements].
    now rewrite !fallible_outcome, !fallible_images.
  - reflexivity.
Qed.

(** X11.  When every accepted file opens, a run on a folder with an
    accepted image returns, and it makes its calls in this order: the
    canvas, one [addLayer] for each accepted image, then [cleanUp]
    once, then [outputCoordinates] once, and after that nothing but
    writes.  Nothing is printed before the last image is placed and
    the sprite trimmed. *)
Theorem run_order (opens : File -> bool) (ps : Engine) (cfg : Config)
    (user : list Reply) (folder : Folder) :
  accepted folder <> [] ->
  forallb (entry_opens opens) (accepted folder) = true ->
  exists adds ws,
    Fallible.createSprite opens ps cfg user (Some folder)
    = (Returned tt,
       (DocumentsAdd 10000 10000 72 "sprite" TRANSPARENT
        :: adds ++ CleanUp :: OutputCoordinates :: ws)%list)
    /\ map add_layer_event (placements adds) = adds
    /\ map placed_image (placements adds) = accepted folder
    /\ forallb is_write ws = true.
Proof.
  intros Hsome Hopen.
  rewrite fallible_createSprite_some, fallible_folder, Hopen, folder_run.
  destruct (accepted folder) as [|e images] eqn:Haccepted; [congruence|].
  rewrite <- Haccepted.
  export_facts outputCoordinates_spec Hout ws Hj Hws Hconsole.
  rewrite Hj.
  exists (map add_layer_event (plan_from cfg 0 (accepted folder))), ws.
  split; [reflexivity|].
  rewrite placements_add_layer, plan_images.
  now repeat split.
Qed.

Lemma run_order_witness :
  let opens := all_but "readme.txt" in
  accepted icons_folder <> []
  /\ forallb (entry_opens opens) (accepted icons_folder) = true
  /\ exists adds ws,
       Fallible.createSprite opens photoshop default_config []
         (Some icons_folder)
       = (Returned tt,
          (DocumentsAdd 10000 10000 72 "sprite" TRANSPARENT
           :: adds ++ CleanUp :: OutputCoordinates :: ws)%list)
       /\ map add_layer_event (placements adds) = adds
       /\ map placed_image (placements adds) = accepted icons_folder
       /\ forallb is_write ws = true.
Proof.
  intros opens.
  split; [discriminate|].
  split; [reflexivity|].
  apply (run_order opens photoshop default_config [] icons_folder);
    [discriminate | reflexivity].
Defined.

(** X17.  When an accepted file does not open, the run ends there with
    the error of [open]: the canvas was created, [addLayer] was called
    for the accepted files before it and for the file itself, and
    nothing follows; no [cleanUp], no [outputCoordinates], nothing
    written, and no file after it is looked at. *)
Theorem failed_open_aborts (opens : File -> bool) (ps : Engine)
    (cfg : Config) (user : list Reply) (folder : Folder)
    (before after : list Entry) (f : File) :
  getFiles folder = (before ++ AFile f :: after)%list ->
  valid_image (AFile f) = true ->
  opens f = false ->
  forallb (entry_opens opens) (filter valid_image before) = true ->
  Fallible.createSprite opens ps cfg user (Some folder)
  = (Threw open_error,
     DocumentsAdd 10000 10000 72 "sprite" TRANSPARENT
     :: map add_layer_event
          (plan_from cfg 0 (filter valid_image before ++ [AFile f])))
  /\ console (journal (Fallible.createSprite opens ps cfg user (Some folder)))
     = "".
Proof.
  intros Hfiles Hvalid Hfails Hbefore.
  assert (accepted folder
          = (filter valid_image before
             ++ AFile f :: filter valid_image after)%list) as Haccepted.
  { unfold accepted.
    rewrite Hfiles, filter_app.
    cbn [filter].
    now rewrite Hvalid. }
  destruct (attempted_until opens (filter valid_image before)
              (filter valid_image after) (AFile f) Hbefore Hfails)
    as [Hattempted Hall].
  assert (Fallible.createSprite opens ps cfg user (Some folder)
          = (Threw open_error,
             DocumentsAdd 10000 10000 72 "sprite" TRANSPARENT
             :: map add_layer_event
                  (plan_from cfg 0 (filter valid_image before ++ [AFile f]))))
    as Hrun.
  { rewrite fallible_createSprite_some, fallible_folder.
    now rewrite Haccepted, Hall, Hattempted. }
  split; [exact Hrun|].
  rewrite Hrun.
  unfold journal.
  cbn [snd console].
  apply console_add_layer.
Qed.

Lemma failed_open_aborts_witness :
  let opens := all_but "b.png" in
  let folder :=
    {| getFiles := [file "a.png"; file "notes.txt"; file "b.png";
                    file "c.png"] |} in
  getFiles folder
  = ([file "a.png"; file "notes.txt"] ++ file "b.png" :: [file "c.png"])%list
  /\ valid_image (file "b.png") = true
  /\ opens {| file_name := "b.png"; image_left := 0; image_top := 0 |} = false
  /\ forallb (entry_opens opens)
       (filter valid_image [file "a.png"; file "notes.txt"]) = true
  /\ Fallible.createSprite opens photoshop default_config [] (Some folder)
     = (Threw open_error,
        [DocumentsAdd 10000 10000 72 "sprite" TRANSPARENT;
         AddLayer (file "a.png") 0 0 {| x := 0; y := 0 |};
         AddLayer (file "b.png") 0 1 {| x := 0; y := 50 |}]).
Proof.
  intros opens folder.
  split; [reflexivity|].
  split; [reflexivity|].
  split; [reflexivity|].
  split; [reflexivity|].
  apply (failed_open_aborts opens photoshop default_config [] folder
           [file "a.png"; file "notes.txt"] [file "c.png"]
           {| file_name := "b.png"; image_left := 0; image_top := 0 |});
    reflexivity.
Defined.
